(** * MedMap: the controller, the side panel and the mind-map sizing

    A shallow embedding of the parts of the MedMap front-end that carry
    logic: [processConcepts] and [handleGenerateMap] of the [App]
    component, the handlers of [SidePanel], and [getStableLinkId] and the
    collision radius of [MindMap].

    React state is a record, every [setX] call is a function on that
    record, and an [async] handler is split at its [await]: the part that
    runs at once, and the continuation that runs when the promise settles.
    The outcome of a service call is an argument of the model. *)

From Stdlib Require Import ZArith NArith QArith Qminmax String Ascii.
From stdpp Require Import base decidable option numbers list.

Open Scope string_scope.
Open Scope list_scope.
Open Scope nat_scope.

(** ** JavaScript strings

    A JavaScript string is a sequence of UTF-16 code units. *)

Abbreviation JsString := (list N).

(** A string literal of the source, all of whose characters are ASCII. *)
Definition lit (s : string) : JsString :=
  List.map N_of_ascii (list_ascii_of_string s).

(** Truthiness of a string: every string but the empty one. *)
Definition truthy (s : JsString) : bool :=
  match s with
  | [] => false
  | _ :: _ => true
  end.

(** The code units that [String.prototype.trim] strips: the WhiteSpace and
    LineTerminator productions of ECMAScript. *)
Definition is_white_space (c : N) : bool :=
  (  (9 <=? c) && (c <=? 13)          (* TAB, LF, VT, FF, CR *)
  || (c =? 32)                        (* SPACE *)
  || (c =? 160)                       (* NO-BREAK SPACE *)
  || (c =? 5760)                      (* OGHAM SPACE MARK *)
  || (8192 <=? c) && (c <=? 8202)     (* EN QUAD .. HAIR SPACE *)
  || (c =? 8232) || (c =? 8233)       (* LINE and PARAGRAPH SEPARATOR *)
  || (c =? 8239)                      (* NARROW NO-BREAK SPACE *)
  || (c =? 8287)                      (* MEDIUM MATHEMATICAL SPACE *)
  || (c =? 12288)                     (* IDEOGRAPHIC SPACE *)
  || (c =? 65279)                     (* ZERO WIDTH NO-BREAK SPACE *)
  )%N.

Fixpoint trimStart (s : JsString) : JsString :=
  match s with
  | [] => []
  | c :: s' => if is_white_space c then trimStart s' else s
  end.

Definition trimEnd (s : JsString) : JsString :=
  reverse (trimStart (reverse s)).

Definition trim (s : JsString) : JsString :=
  trimEnd (trimStart s).

(** ** types.ts *)

Record MedicalConcept := {
  concept : JsString;
  relation : JsString;
  note : JsString;
  difficulty : Z;
  system : option JsString
}.

(** What indexing an object literal with a string key yields: the string
    stored under an own key, or a member inherited from
    [Object.prototype]. *)
Inductive PropValue :=
  | OwnString (s : JsString)
  | Inherited (key : JsString).

(** [Node extends SimulationNodeDatum]: the optional fields are those the
    force layout and the renderer write later. *)
Record Node := {
  id : JsString;
  width : option Q;
  height : option Q;
  color : PropValue;
  data : MedicalConcept;
  x : option Q;
  y : option Q;
  vx : option Q;
  vy : option Q;
  fx : option Q;
  fy : option Q
}.

(** [source: string | Node]: a bare id, or the node object that the link
    force has put in its place. *)
Inductive Endpoint :=
  | EpId (s : JsString)
  | EpNode (n : Node).

Record Link := {
  source : Endpoint;
  target : Endpoint
}.

Record GraphData := {
  nodes : list Node;
  links : list Link
}.

Record QuizQuestion := {
  question : JsString;
  options : list JsString;
  correctAnswer : JsString;
  explanation : JsString
}.

Record Flashcard := {
  fc_question : JsString;
  fc_answer : JsString
}.

(** How a promise settles. *)
Inductive Outcome (A : Type) :=
  | Resolved (a : A)
  | Rejected.
Arguments Resolved {A} a.
Arguments Rejected {A}.

(** Lookup in an object literal given as its list of own entries. *)
Fixpoint own_property (entries : list (JsString * JsString)) (k : JsString)
  : option JsString :=
  match entries with
  | [] => None
  | (k', v) :: rest => if decide (k' = k) then Some v else own_property rest k
  end.

(** The string-keyed members every object literal inherits. *)
Definition object_prototype_keys : list JsString :=
  List.map lit
    [ "constructor"; "__proto__"; "hasOwnProperty"; "isPrototypeOf";
      "propertyIsEnumerable"; "toLocaleString"; "toString"; "valueOf";
      "__defineGetter__"; "__defineSetter__"; "__lookupGetter__";
      "__lookupSetter__" ].

Definition get_property (entries : list (JsString * JsString)) (k : JsString)
  : option PropValue :=
  match own_property entries k with
  | Some v => Some (OwnString v)
  | None =>
      if decide (k ∈ object_prototype_keys) then Some (Inherited k) else None
  end.

(** Truthiness of the result of a property read: [undefined] and the empty
    string are falsy, functions and objects are truthy. *)
Definition truthy_property (v : option PropValue) : bool :=
  match v with
  | None => false
  | Some (OwnString s) => truthy s
  | Some (Inherited _) => true
  end.

(** ** The controller: [App] *)

Module App.

Definition systemColors : list (JsString * JsString) :=
  [ (lit "Cardiovascular", lit "#ef4444");
    (lit "Nervous", lit "#3b82f6");
    (lit "Endocrine", lit "#8b5cf6");
    (lit "Respiratory", lit "#0ea5e9");
    (lit "Gastrointestinal", lit "#f97316");
    (lit "Renal", lit "#eab308");
    (lit "Immune", lit "#22c55e");
    (lit "Pharmacology", lit "#6366f1");
    (lit "Metabolic", lit "#ec4899");
    (lit "Diagnostics", lit "#14b8a6");
    (lit "Default", lit "#6b7280") ].

Definition DEFAULT_TOPIC : JsString := lit "Diabetes Mellitus".

Definition API_ERROR_MAP : JsString :=
  lit "API Error: Could not generate map. You may have exceeded your quota. Please try again later.".

Record State := {
  graphData : GraphData;
  isLoading : bool;
  selectedNode : option Node;
  topic : JsString;
  initialLoad : bool;
  apiError : option JsString;
  searchHistory : list JsString;
  showHistory : bool
}.

(** [useState] initial values. *)
Definition initial : State :=
  {| graphData := {| nodes := []; links := [] |};
     isLoading := false;
     selectedNode := None;
     topic := [];
     initialLoad := true;
     apiError := None;
     searchHistory := [];
     showHistory := false |}.

Definition setGraphData (g : GraphData) (st : State) : State :=
  {| graphData := g; isLoading := isLoading st;
     selectedNode := selectedNode st; topic := topic st;
     initialLoad := initialLoad st; apiError := apiError st;
     searchHistory := searchHistory st; showHistory := showHistory st |}.

Definition setIsLoading (b : bool) (st : State) : State :=
  {| graphData := graphData st; isLoading := b;
     selectedNode := selectedNode st; topic := topic st;
     initialLoad := initialLoad st; apiError := apiError st;
     searchHistory := searchHistory st; showHistory := showHistory st |}.

Definition setSelectedNode (n : option Node) (st : State) : State :=
  {| graphData := graphData st; isLoading := isLoading st;
     selectedNode := n; topic := topic st;
     initialLoad := initialLoad st; apiError := apiError st;
     searchHistory := searchHistory st; showHistory := showHistory st |}.

Definition setTopic (t : JsString) (st : State) : State :=
  {| graphData := graphData st; isLoading := isLoading st;
     selectedNode := selectedNode st; topic := t;
     initialLoad := initialLoad st; apiError := apiError st;
     searchHistory := searchHistory st; showHistory := showHistory st |}.

Definition setInitialLoad (b : bool) (st : State) : State :=
  {| graphData := graphData st; isLoading := isLoading st;
     selectedNode := selectedNode st; topic := topic st;
     initialLoad := b; apiError := apiError st;
     searchHistory := searchHistory st; showHistory := showHistory st |}.

Definition setApiError (e : option JsString) (st : State) : State :=
  {| graphData := graphData st; isLoading := isLoading st;
     selectedNode := selectedNode st; topic := topic st;
     initialLoad := initialLoad st; apiError := e;
     searchHistory := searchHistory st; showHistory := showHistory st |}.

(** [setSearchHistory] is called with an updater function. *)
Definition setSearchHistory (f : list JsString -> list JsString) (st : State)
  : State :=
  {| graphData := graphData st; isLoading := isLoading st;
     selectedNode := selectedNode st; topic := topic st;
     initialLoad := initialLoad st; apiError := apiError st;
     searchHistory := f (searchHistory st); showHistory := showHistory st |}.

Definition setShowHistory (b : bool) (st : State) : State :=
  {| graphData := graphData st; isLoading := isLoading st;
     selectedNode := selectedNode st; topic := topic st;
     initialLoad := initialLoad st; apiError := apiError st;
     searchHistory := searchHistory st; showHistory := b |}.

(** *** processConcepts *)

Definition centralNode (centralTopic : JsString) : Node :=
  {| id := centralTopic;
     width := None; height := None;
     color := OwnString (lit "#06b6d4");
     data := {| concept := centralTopic;
                relation := lit "Central Topic";
                note := lit "Central hub for the topic of " ++ centralTopic ++ lit ".";
                difficulty := 0;
                system := Some (lit "Core") |};
     x := None; y := None; vx := None; vy := None;
     fx := None; fy := None |}.

(** [concept.system && systemColors[concept.system] ? concept.system : 'Default'] *)
Definition systemKey (c : MedicalConcept) : JsString :=
  match system c with
  | Some s =>
      if truthy s && truthy_property (get_property systemColors s)
      then s else lit "Default"
  | None => lit "Default"
  end.

(** [systemColors[systemKey]]. The key is always a property of the object
    ([systemKey_defined] below), so the default is never taken. *)
Definition colorOf (k : JsString) : PropValue :=
  default (Inherited k) (get_property systemColors k).

Definition conceptNode (c : MedicalConcept) : Node :=
  {| id := concept c;
     width := None; height := None;
     color := colorOf (systemKey c);
     data := c;
     x := None; y := None; vx := None; vy := None;
     fx := None; fy := None |}.

Definition conceptLink (centralTopic : JsString) (c : MedicalConcept) : Link :=
  {| source := EpId centralTopic; target := EpId (concept c) |}.

(** The body of the [forEach] callback: one [push] on each array. *)
Definition pushConcept (centralTopic : JsString)
    (acc : list Node * list Link) (c : MedicalConcept)
  : list Node * list Link :=
  (acc.1 ++ [conceptNode c], acc.2 ++ [conceptLink centralTopic c]).

Definition processConcepts (concepts : list MedicalConcept)
    (centralTopic : JsString) : GraphData :=
  let acc :=
    fold_left (pushConcept centralTopic) concepts
              ([centralNode centralTopic], []) in
  {| nodes := acc.1; links := acc.2 |}.

(** *** handleGenerateMap *)

(** [(currentTopic || DEFAULT_TOPIC).trim()] *)
Definition topicToUse (currentTopic : JsString) : JsString :=
  trim (if truthy currentTopic then currentTopic else DEFAULT_TOPIC).

(** The updater passed to [setSearchHistory]:
    [[topicToUse, ...prevHistory.filter(t => t !== topicToUse)].slice(0, 10)]. *)
Definition newHistory (topicToUse : JsString) (prevHistory : list JsString)
  : list JsString :=
  take 10 (topicToUse :: filter (λ t, t ≠ topicToUse) prevHistory).

(** The statements before the [try]. *)
Definition beginSearch (topicToUse : JsString) (st : State) : State :=
  setApiError None
    (setSelectedNode None
      (setIsLoading true
        (setTopic topicToUse st))).

(** The rest of the [try] block, once the service has answered. *)
Definition onConcepts (concepts : list MedicalConcept)
    (topicToUse : JsString) (addToHistory : bool) (st : State) : State :=
  let st := setGraphData (processConcepts concepts topicToUse) st in
  if addToHistory
  then setSearchHistory (newHistory topicToUse) st
  else st.

(** The [catch] block. *)
Definition onFailure (st : State) : State :=
  setGraphData {| nodes := []; links := [] |}
    (setApiError (Some API_ERROR_MAP) st).

(** The [finally] block. *)
Definition finish (st : State) : State :=
  setShowHistory false
    (setInitialLoad false
      (setIsLoading false st)).

(** What a call leaves behind: the state, and the topics with which the
    generative map service was called. *)
Record Run := {
  final : State;
  requested : list JsString
}.

(** [handleGenerateMap], run to completion with no other event in
    between; [generateMedicalMap] gives the outcome of the service call. *)
Definition handleGenerateMap
    (generateMedicalMap : JsString -> Outcome (list MedicalConcept))
    (currentTopic : JsString) (addToHistory : bool) (st : State) : Run :=
  let topicToUse := topicToUse currentTopic in
  if negb (truthy topicToUse) then {| final := st; requested := [] |}
  else
    let st := beginSearch topicToUse st in
    let st :=
      match generateMedicalMap topicToUse with
      | Resolved concepts => onConcepts concepts topicToUse addToHistory st
      | Rejected => onFailure st
      end in
    {| final := finish st; requested := [topicToUse] |}.


(** *** The other handlers of [App] *)

(** [handleBreakAndStartNewMap]: [addToHistory] takes its default. *)
Definition handleBreakAndStartNewMap
    (generateMedicalMap : JsString -> Outcome (list MedicalConcept))
    (newTopic : JsString) (st : State) : Run :=
  handleGenerateMap generateMedicalMap newTopic true st.

Definition handleNodeClick (node : Node) (st : State) : State :=
  setSelectedNode (Some node) st.

Definition handleClosePanel (st : State) : State :=
  setSelectedNode None st.

(** [handleSubmit], and the Explore button of the welcome screen: both
    call [handleGenerateMap(topic)] with the text of the search box. *)
Definition handleSubmit
    (generateMedicalMap : JsString -> Outcome (list MedicalConcept))
    (st : State) : Run :=
  handleGenerateMap generateMedicalMap (topic st) true st.

Definition handleHistoryClick
    (generateMedicalMap : JsString -> Outcome (list MedicalConcept))
    (historyTopic : JsString) (st : State) : Run :=
  handleGenerateMap generateMedicalMap historyTopic false
    (setTopic historyTopic st).

(** [handleClickOutside]: [outside] says that the history container is
    mounted and does not contain the target of the mouse event. *)
Definition handleClickOutside (outside : bool) (st : State) : State :=
  if outside then setShowHistory false st else st.

(** The panel's [handleFocusClick], seen from the controller: with a node
    selected it calls [onBreakAndStartNewMap] with the node's concept and
    then [onClose]. [onClose] runs while the search is awaited; it writes
    [selectedNode] only, which the rest of the search does not touch, so
    it is applied to the outcome of the search. *)
Definition handleFocusClick
    (generateMedicalMap : JsString -> Outcome (list MedicalConcept))
    (st : State) : Run :=
  match selectedNode st with
  | None => {| final := st; requested := [] |}
  | Some node =>
      let r :=
        handleBreakAndStartNewMap generateMedicalMap (concept (data node)) st in
      {| final := handleClosePanel (final r); requested := requested r |}
  end.

(** What the user can do to the controller. An event that may search
    carries the outcome of the service call it would make. *)
Inductive Event :=
  | TypeTopic (value : JsString)
  | Submit (o : Outcome (list MedicalConcept))
  | HistoryClick (historyTopic : JsString) (o : Outcome (list MedicalConcept))
  | FocusClick (o : Outcome (list MedicalConcept))
  | NodeClick (node : Node)
  | ClosePanel
  | ToggleHistory
  | ClickOutside (outside : bool).

Definition step (st : State) (e : Event) : State :=
  match e with
  | TypeTopic value => setTopic value st
  | Submit o => final (handleSubmit (λ _, o) st)
  | HistoryClick historyTopic o =>
      final (handleHistoryClick (λ _, o) historyTopic st)
  | FocusClick o => final (handleFocusClick (λ _, o) st)
  | NodeClick node => handleNodeClick node st
  | ClosePanel => handleClosePanel st
  | ToggleHistory => setShowHistory (negb (showHistory st)) st
  | ClickOutside outside => handleClickOutside outside st
  end.

(** A session: the events in order, each search run to completion. *)
Definition run (es : list Event) (st : State) : State :=
  fold_left step es st.

End App.

(** ** The side panel *)

Module SidePanel.

Definition API_ERROR_QUIZ : JsString :=
  lit "API Error: Could not generate quiz. You may have exceeded your quota. Please try again later.".

Definition API_ERROR_FLASHCARD : JsString :=
  lit "API Error: Could not generate flashcard. You may have exceeded your quota. Please try again later.".

(** The [selectedNode] prop, the component's own state, and the parent's
    error slot that the [setApiError] prop writes. The component is
    rendered once by [App], without a key: one instance lives for the
    whole session, whatever node is selected. *)
Record State := {
  selectedNode : option Node;
  imageUrl : option JsString;
  isImageLoading : bool;
  quiz : option QuizQuestion;
  isQuizLoading : bool;
  selectedAnswer : option JsString;
  isAnswerSubmitted : bool;
  flashcards : list Flashcard;
  currentFlashcardIndex : Z;
  isFlashcardLoading : bool;
  isFlashcardFlipped : bool;
  apiError : option JsString
}.

Definition initial : State :=
  {| selectedNode := None; imageUrl := None; isImageLoading := false;
     quiz := None; isQuizLoading := false; selectedAnswer := None;
     isAnswerSubmitted := false; flashcards := [];
     currentFlashcardIndex := 0; isFlashcardLoading := false;
     isFlashcardFlipped := false; apiError := None |}.

Definition withSelectedNode (n : option Node) (st : State) : State :=
  {| selectedNode := n; imageUrl := imageUrl st;
     isImageLoading := isImageLoading st; quiz := quiz st;
     isQuizLoading := isQuizLoading st; selectedAnswer := selectedAnswer st;
     isAnswerSubmitted := isAnswerSubmitted st; flashcards := flashcards st;
     currentFlashcardIndex := currentFlashcardIndex st;
     isFlashcardLoading := isFlashcardLoading st;
     isFlashcardFlipped := isFlashcardFlipped st; apiError := apiError st |}.

Definition setImageUrl (u : option JsString) (st : State) : State :=
  {| selectedNode := selectedNode st; imageUrl := u;
     isImageLoading := isImageLoading st; quiz := quiz st;
     isQuizLoading := isQuizLoading st; selectedAnswer := selectedAnswer st;
     isAnswerSubmitted := isAnswerSubmitted st; flashcards := flashcards st;
     currentFlashcardIndex := currentFlashcardIndex st;
     isFlashcardLoading := isFlashcardLoading st;
     isFlashcardFlipped := isFlashcardFlipped st; apiError := apiError st |}.

Definition setIsImageLoading (b : bool) (st : State) : State :=
  {| selectedNode := selectedNode st; imageUrl := imageUrl st;
     isImageLoading := b; quiz := quiz st;
     isQuizLoading := isQuizLoading st; selectedAnswer := selectedAnswer st;
     isAnswerSubmitted := isAnswerSubmitted st; flashcards := flashcards st;
     currentFlashcardIndex := currentFlashcardIndex st;
     isFlashcardLoading := isFlashcardLoading st;
     isFlashcardFlipped := isFlashcardFlipped st; apiError := apiError st |}.

Definition setQuiz (q : option QuizQuestion) (st : State) : State :=
  {| selectedNode := selectedNode st; imageUrl := imageUrl st;
     isImageLoading := isImageLoading st; quiz := q;
     isQuizLoading := isQuizLoading st; selectedAnswer := selectedAnswer st;
     isAnswerSubmitted := isAnswerSubmitted st; flashcards := flashcards st;
     currentFlashcardIndex := currentFlashcardIndex st;
     isFlashcardLoading := isFlashcardLoading st;
     isFlashcardFlipped := isFlashcardFlipped st; apiError := apiError st |}.

Definition setIsQuizLoading (b : bool) (st : State) : State :=
  {| selectedNode := selectedNode st; imageUrl := imageUrl st;
     isImageLoading := isImageLoading st; quiz := quiz st;
     isQuizLoading := b; selectedAnswer := selectedAnswer st;
     isAnswerSubmitted := isAnswerSubmitted st; flashcards := flashcards st;
     currentFlashcardIndex := currentFlashcardIndex st;
     isFlashcardLoading := isFlashcardLoading st;
     isFlashcardFlipped := isFlashcardFlipped st; apiError := apiError st |}.

Definition setSelectedAnswer (a : option JsString) (st : State) : State :=
  {| selectedNode := selectedNode st; imageUrl := imageUrl st;
     isImageLoading := isImageLoading st; quiz := quiz st;
     isQuizLoading := isQuizLoading st; selectedAnswer := a;
     isAnswerSubmitted := isAnswerSubmitted st; flashcards := flashcards st;
     currentFlashcardIndex := currentFlashcardIndex st;
     isFlashcardLoading := isFlashcardLoading st;
     isFlashcardFlipped := isFlashcardFlipped st; apiError := apiError st |}.

Definition setIsAnswerSubmitted (b : bool) (st : State) : State :=
  {| selectedNode := selectedNode st; imageUrl := imageUrl st;
     isImageLoading := isImageLoading st; quiz := quiz st;
     isQuizLoading := isQuizLoading st; selectedAnswer := selectedAnswer st;
     isAnswerSubmitted := b; flashcards := flashcards st;
     currentFlashcardIndex := currentFlashcardIndex st;
     isFlashcardLoading := isFlashcardLoading st;
     isFlashcardFlipped := isFlashcardFlipped st; apiError := apiError st |}.

(** [setFlashcards] takes a value or an updater; a value is a constant
    updater. *)
Definition setFlashcards (f : list Flashcard -> list Flashcard) (st : State)
  : State :=
  {| selectedNode := selectedNode st; imageUrl := imageUrl st;
     isImageLoading := isImageLoading st; quiz := quiz st;
     isQuizLoading := isQuizLoading st; selectedAnswer := selectedAnswer st;
     isAnswerSubmitted := isAnswerSubmitted st;
     flashcards := f (flashcards st);
     currentFlashcardIndex := currentFlashcardIndex st;
     isFlashcardLoading := isFlashcardLoading st;
     isFlashcardFlipped := isFlashcardFlipped st; apiError := apiError st |}.

Definition setCurrentFlashcardIndex (f : Z -> Z) (st : State) : State :=
  {| selectedNode := selectedNode st; imageUrl := imageUrl st;
     isImageLoading := isImageLoading st; quiz := quiz st;
     isQuizLoading := isQuizLoading st; selectedAnswer := selectedAnswer st;
     isAnswerSubmitted := isAnswerSubmitted st; flashcards := flashcards st;
     currentFlashcardIndex := f (currentFlashcardIndex st);
     isFlashcardLoading := isFlashcardLoading st;
     isFlashcardFlipped := isFlashcardFlipped st; apiError := apiError st |}.

Definition setIsFlashcardLoading (b : bool) (st : State) : State :=
  {| selectedNode := selectedNode st; imageUrl := imageUrl st;
     isImageLoading := isImageLoading st; quiz := quiz st;
     isQuizLoading := isQuizLoading st; selectedAnswer := selectedAnswer st;
     isAnswerSubmitted := isAnswerSubmitted st; flashcards := flashcards st;
     currentFlashcardIndex := currentFlashcardIndex st;
     isFlashcardLoading := b;
     isFlashcardFlipped := isFlashcardFlipped st; apiError := apiError st |}.

Definition setIsFlashcardFlipped (b : bool) (st : State) : State :=
  {| selectedNode := selectedNode st; imageUrl := imageUrl st;
     isImageLoading := isImageLoading st; quiz := quiz st;
     isQuizLoading := isQuizLoading st; selectedAnswer := selectedAnswer st;
     isAnswerSubmitted := isAnswerSubmitted st; flashcards := flashcards st;
     currentFlashcardIndex := currentFlashcardIndex st;
     isFlashcardLoading := isFlashcardLoading st;
     isFlashcardFlipped := b; apiError := apiError st |}.

Definition setApiError (e : option JsString) (st : State) : State :=
  {| selectedNode := selectedNode st; imageUrl := imageUrl st;
     isImageLoading := isImageLoading st; quiz := quiz st;
     isQuizLoading := isQuizLoading st; selectedAnswer := selectedAnswer st;
     isAnswerSubmitted := isAnswerSubmitted st; flashcards := flashcards st;
     currentFlashcardIndex := currentFlashcardIndex st;
     isFlashcardLoading := isFlashcardLoading st;
     isFlashcardFlipped := isFlashcardFlipped st; apiError := e |}.

(** The calls awaited by the panel. Each records what its [async]
    function closed over when it suspended: the subject of the request
    and, for a flashcard, the [flashcards] array of the render in which
    the handler was created. *)
Inductive Request :=
  | ImageRequest (conceptName : JsString)
  | QuizRequest (subject : MedicalConcept)
  | FlashcardRequest (subject : MedicalConcept) (captured : list Flashcard).

(** What settles a request. [fetchConceptImage] catches every error and
    resolves with [null] instead, so an image never rejects. *)
Inductive Response :=
  | ImageResponse (url : option JsString)
  | QuizResponse (o : Outcome QuizQuestion)
  | FlashcardResponse (o : Outcome Flashcard).

(** *** The effect on [selectedNode]

    Runs after a render in which the [selectedNode] prop has changed.
    With [null] it does nothing; with a node it resets the panel and
    fetches the image. *)
Definition selectNode (n : option Node) (st : State)
  : State * list Request :=
  let st := withSelectedNode n st in
  match n with
  | None => (st, [])
  | Some node =>
      let st := setImageUrl None st in
      let st := setQuiz None st in
      let st := setSelectedAnswer None st in
      let st := setIsAnswerSubmitted false st in
      let st := setFlashcards (λ _, []) st in
      let st := setCurrentFlashcardIndex (λ _, 0%Z) st in
      let st := setIsFlashcardFlipped false st in
      let st := setApiError None st in
      let st := setIsImageLoading true st in
      (st, [ImageRequest (concept (data node))])
  end.

(** The rest of [getImage], after [await fetchConceptImage(...)]. *)
Definition imageSettled (url : option JsString) (st : State) : State :=
  setIsImageLoading false (setImageUrl url st).

(** *** handleGenerateQuiz *)

Definition handleGenerateQuiz (st : State) : State * list Request :=
  match selectedNode st with
  | None => (st, [])
  | Some node =>
      let st := setIsQuizLoading true st in
      let st := setQuiz None st in
      let st := setSelectedAnswer None st in
      let st := setIsAnswerSubmitted false st in
      let st := setApiError None st in
      (st, [QuizRequest (data node)])
  end.

Definition quizSettled (o : Outcome QuizQuestion) (st : State) : State :=
  let st :=
    match o with
    | Resolved quizQuestion => setQuiz (Some quizQuestion) st
    | Rejected => setApiError (Some API_ERROR_QUIZ) st
    end in
  setIsQuizLoading false st.

(** *** handleGenerateFlashcard *)

Definition handleGenerateFlashcard (st : State) : State * list Request :=
  match selectedNode st with
  | None => (st, [])
  | Some node =>
      let st' := setIsFlashcardLoading true st in
      let st' := setIsFlashcardFlipped false st' in
      let st' := setApiError None st' in
      (st', [FlashcardRequest (data node) (flashcards st)])
  end.

(** After the [await]: [setFlashcards(prev => [...prev, card])] works on
    the state of that moment, [setCurrentFlashcardIndex(flashcards.length)]
    on the array the handler closed over. *)
Definition flashcardSettled (captured : list Flashcard)
    (o : Outcome Flashcard) (st : State) : State :=
  let st :=
    match o with
    | Resolved card =>
        let st := setFlashcards (λ prev, prev ++ [card]) st in
        setCurrentFlashcardIndex (λ _, Z.of_nat (length captured)) st
    | Rejected => setApiError (Some API_ERROR_FLASHCARD) st
    end in
  setIsFlashcardLoading false st.

(** The continuation of a request, whichever it is. A response of
    another kind than the request does not occur. *)
Definition settle (r : Request) (resp : Response) (st : State) : State :=
  match r, resp with
  | ImageRequest _, ImageResponse url => imageSettled url st
  | QuizRequest _, QuizResponse o => quizSettled o st
  | FlashcardRequest _ captured, FlashcardResponse o =>
      flashcardSettled captured o st
  | _, _ => st
  end.

(** *** The synchronous handlers *)

Definition handleAnswerSelect (option : JsString) (st : State) : State :=
  if isAnswerSubmitted st then st
  else setSelectedAnswer (Some option) st.

(** [if (!selectedAnswer) return]: [null] and the empty string are falsy. *)
Definition handleSubmitAnswer (st : State) : State :=
  match selectedAnswer st with
  | None => st
  | Some a => if truthy a then setIsAnswerSubmitted true st else st
  end.

Definition handlePrevFlashcard (st : State) : State :=
  if (0 <? currentFlashcardIndex st)%Z
  then setIsFlashcardFlipped false
         (setCurrentFlashcardIndex (λ prev, (prev - 1)%Z) st)
  else st.

Definition handleNextFlashcard (st : State) : State :=
  if (currentFlashcardIndex st <? Z.of_nat (length (flashcards st)) - 1)%Z
  then setIsFlashcardFlipped false
         (setCurrentFlashcardIndex (λ prev, (prev - 1)%Z) st)
  else st.

(** [flashcards[currentFlashcardIndex]]: [undefined] outside the array. *)
Definition currentFlashcard (st : State) : option Flashcard :=
  if (currentFlashcardIndex st <? 0)%Z then None
  else flashcards st !! Z.to_nat (currentFlashcardIndex st).

(** *** The panel as a transition system

    What can happen to the one panel instance, in the order the event
    loop delivers it. A [Settled] event carries the request it answers. *)
Inductive Event :=
  | Select (n : option Node)
  | ClickGenerateQuiz
  | ClickGenerateFlashcard
  | ClickPrev
  | ClickNext
  | ClickOption (option : JsString)
  | ClickSubmit
  | Settled (r : Request) (resp : Response).

Definition step (e : Event) (st : State) : State * list Request :=
  match e with
  | Select n => selectNode n st
  | ClickGenerateQuiz => handleGenerateQuiz st
  | ClickGenerateFlashcard => handleGenerateFlashcard st
  | ClickPrev => (handlePrevFlashcard st, [])
  | ClickNext => (handleNextFlashcard st, [])
  | ClickOption o => (handleAnswerSelect o st, [])
  | ClickSubmit => (handleSubmitAnswer st, [])
  | Settled r resp => (settle r resp st, [])
  end.

(** Run a trace, collecting the requests issued on the way. *)
Fixpoint run (es : list Event) (st : State) : State * list Request :=
  match es with
  | [] => (st, [])
  | e :: es' =>
      let (st1, rs1) := step e st in
      let (st2, rs2) := run es' st1 in
      (st2, rs1 ++ rs2)
  end.

(** [handleGenerateFlashcard] run to completion: the promise settles
    before any other event reaches the panel. *)
Definition generateFlashcardNow (o : Outcome Flashcard) (st : State)
  : State :=
  let (st1, rs) := handleGenerateFlashcard st in
  fold_left (λ s r, settle r (FlashcardResponse o) s) rs st1.


(** [handleGenerateQuiz] run to completion. *)
Definition generateQuizNow (o : Outcome QuizQuestion) (st : State) : State :=
  let (st1, rs) := handleGenerateQuiz st in
  fold_left (λ s r, settle r (QuizResponse o) s) rs st1.

(** *** What the render reads *)

Definition CLASS_CHOSEN : JsString := lit "bg-cyan-600 border-cyan-400".
Definition CLASS_IDLE : JsString :=
  lit "bg-gray-700 hover:bg-gray-600 border-gray-600".
Definition CLASS_CORRECT : JsString := lit "bg-green-500/80 border-green-400".
Definition CLASS_WRONG : JsString := lit "bg-red-500/80 border-red-400".
Definition CLASS_OTHER : JsString :=
  lit "bg-gray-700/50 border-gray-600 opacity-70".

(** [quiz?.correctAnswer] *)
Definition quizCorrectAnswer (st : State) : option JsString :=
  correctAnswer <$> quiz st.

Definition getButtonClass (option : JsString) (st : State) : JsString :=
  if negb (isAnswerSubmitted st) then
    if decide (selectedAnswer st = Some option) then CLASS_CHOSEN
    else CLASS_IDLE
  else if decide (Some option = quizCorrectAnswer st) then CLASS_CORRECT
  else if decide (Some option = selectedAnswer st
                  ∧ Some option ≠ quizCorrectAnswer st) then CLASS_WRONG
  else CLASS_OTHER.

(** The heading of the result box, shown when there is a quiz, it is not
    loading and the answer has been submitted. *)
Definition resultHeading (st : State) : option JsString :=
  match quiz st with
  | Some q =>
      if negb (isQuizLoading st) && isAnswerSubmitted st then
        Some (if decide (selectedAnswer st = Some (correctAnswer q))
              then lit "Correct!" else lit "Incorrect.")
      else None
  | None => None
  end.

(** [disabled] of the two paging buttons. *)
Definition prevDisabled (st : State) : bool :=
  (currentFlashcardIndex st =? 0)%Z.

Definition nextDisabled (st : State) : bool :=
  (currentFlashcardIndex st =? Z.of_nat (length (flashcards st)) - 1)%Z.

(** The deck is drawn when there are cards and none is loading; drawing it
    reads [currentFlashcard.question]. *)
Definition deckShown (st : State) : bool :=
  match selectedNode st with
  | None => false
  | Some _ =>
      (0 <? Z.of_nat (length (flashcards st)))%Z
      && negb (isFlashcardLoading st)
  end.

(** The text on the front of the deck: [Rejected] is the [TypeError] of
    reading [question] of [undefined]; [Resolved None] is no deck. *)
Definition deckFront (st : State) : Outcome (option JsString) :=
  if deckShown st then
    match currentFlashcard st with
    | Some card => Resolved (Some (fc_question card))
    | None => Rejected
    end
  else Resolved None.

End SidePanel.

(** ** The mind map *)

Module MindMap.

(** *** getStableLinkId *)

Definition getStableLinkId (d : Link) : JsString :=
  let sourceId :=
    match source d with
    | EpId s => s
    | EpNode n => id n
    end in
  let targetId :=
    match target d with
    | EpId s => s
    | EpNode n => id n
    end in
  sourceId ++ lit "-" ++ targetId.

(** *** Node sizes and the collision radius

    Lengths are numbers of the page's coordinate system; the model takes
    them exact, as rationals. *)

Definition PADDING_X : Q := 24.
Definition PADDING_Y : Q := 16.

Definition withSize (w h : Q) (d : Node) : Node :=
  {| id := id d; width := Some w; height := Some h; color := color d;
     data := data d; x := x d; y := y d; vx := vx d; vy := vy d;
     fx := fx d; fy := fy d |}.

(** The measuring pass of the update effect: the text's bounding box,
    when the container has a text element, else the fixed size. *)
Definition measure (bbox : option (Q * Q)) (d : Node) : Node :=
  match bbox with
  | Some (bw, bh) => withSize (bw + PADDING_X) (bh + PADDING_Y) d
  | None => withSize 60 40 d
  end.

(** [v || 0] on an optional number. *)
Definition orZero (v : option Q) : Q :=
  match v with
  | Some q => if Qeq_bool q 0 then 0 else q
  | None => 0
  end.

(** The radius accessor given to [d3.forceCollide] when the simulation
    is created. *)
Definition collideRadiusInit (d : Node) : Q :=
  Qmax (orZero (width d)) (orZero (height d)) / 2 + 8.

(** The radius accessor installed again by the update effect. *)
Definition collideRadiusUpdate (d : Node) : Q :=
  Qmax (orZero (width d)) (orZero (height d)) / 2 + 8.


(** *** Dragging a node *)

(** What the drag handlers touch of the force simulation: the target of
    its energy, and whether its timer runs. *)
Record Simulation := {
  alphaTarget : Q;
  running : bool
}.

Definition setAlphaTarget (a : Q) (sim : Simulation) : Simulation :=
  {| alphaTarget := a; running := running sim |}.

Definition restart (sim : Simulation) : Simulation :=
  {| alphaTarget := alphaTarget sim; running := true |}.

Definition withPin (px py : option Q) (d : Node) : Node :=
  {| id := id d; width := width d; height := height d; color := color d;
     data := data d; x := x d; y := y d; vx := vx d; vy := vy d;
     fx := px; fy := py |}.

(** [active] is [event.active], the number of other drag gestures in
    progress. *)
Definition dragstarted (active : nat) (sim : Simulation) (d : Node)
  : Simulation * Node :=
  (if Nat.eqb active 0 then restart (setAlphaTarget 0.3 sim) else sim,
   withPin (x d) (y d) d).

Definition dragged (pointer : Q * Q) (d : Node) : Node :=
  withPin (Some pointer.1) (Some pointer.2) d.

Definition dragended (active : nat) (sim : Simulation) (d : Node)
  : Simulation * Node :=
  (if Nat.eqb active 0 then setAlphaTarget 0 sim else sim,
   withPin None None d).

(** One gesture on one node: pointer down, the pointer moving through
    [moves], pointer up. *)
Definition dragGesture (activeAtStart activeAtEnd : nat)
    (moves : list (Q * Q)) (sim : Simulation) (d : Node)
  : Simulation * Node :=
  let (sim1, d1) := dragstarted activeAtStart sim d in
  let d2 := fold_left (λ n p, dragged p n) moves d1 in
  dragended activeAtEnd sim1 d2.

End MindMap.


(** ** wikipediaService.ts *)

Module WikipediaService.

Record Thumbnail := {
  thumb_source : JsString
}.

Record Page := {
  thumbnail : option Thumbnail
}.

(** What [fetch] and [response.json()] give. [pages] are the entries of
    [data.query.pages] in the order of [Object.keys]; [BadBody] is a body
    that is not JSON or from which [data.query.pages] cannot be read. *)
Inductive Body :=
  | BadBody
  | Pages (pages : list (JsString * Page)).

Inductive FetchResult :=
  | NetworkError
  | HttpResponse (ok : bool) (body : Body).

(** The [try] block; [Rejected] is a throw. *)
Definition lookupThumbnail (r : FetchResult) : Outcome (option JsString) :=
  match r with
  | NetworkError => Rejected
  | HttpResponse ok body =>
      if negb ok then Rejected
      else
        match body with
        | BadBody => Rejected
        | Pages [] => Rejected
        | Pages ((pageId, page) :: _) =>
            if decide (pageId ≠ lit "-1") then
              match thumbnail page with
              | Some t => Resolved (Some (thumb_source t))
              | None => Resolved None
              end
            else Resolved None
        end
  end.

(** [fetchConceptImage]: the [catch] turns every throw into [null]. *)
Definition fetchConceptImage (r : FetchResult) : option JsString :=
  match lookupThumbnail r with
  | Resolved url => url
  | Rejected => None
  end.

End WikipediaService.

(** ** Properties named by the specification *)

(** An endpoint, in either representation, denotes a node id. *)
Inductive denotes : Endpoint -> JsString -> Prop :=
  | denotes_bare (s : JsString) : denotes (EpId s) s
  | denotes_node (n : Node) : denotes (EpNode n) (id n).

(** The link has the two nodes as its endpoints. *)
Definition joins (l : Link) (a b : Node) : Prop :=
  (denotes (source l) (id a) ∧ denotes (target l) (id b))
  ∨ (denotes (source l) (id b) ∧ denotes (target l) (id a)).

Definition is_central (n : Node) : Prop :=
  relation (data n) = lit "Central Topic".

(** The central-node invariant: one position of the node array, and only
    one, holds a node whose relation is "Central Topic"; that node has
    difficulty 0 and a link joins it to the node at every other position. *)
Definition central_node_invariant (g : GraphData) : Prop :=
  ∃ (i : nat) (c : Node),
    nodes g !! i = Some c ∧ is_central c ∧ difficulty (data c) = 0%Z
    ∧ (∀ (j : nat) (m : Node), nodes g !! j = Some m → is_central m → j = i)
    ∧ (∀ (j : nat) (m : Node), nodes g !! j = Some m → j ≠ i →
         ∃ l : Link, l ∈ links g ∧ joins l c m).

(** How often a topic occurs in a history. *)
Definition occurrences (t : JsString) (h : list JsString) : nat :=
  length (filter (λ t', t' = t) h).

(** A response is dropped when applying it changes none of the image, quiz
    and flashcard state. *)
Definition content (st : SidePanel.State)
  : option JsString * option QuizQuestion * list Flashcard * Z :=
  (SidePanel.imageUrl st, SidePanel.quiz st, SidePanel.flashcards st,
   SidePanel.currentFlashcardIndex st).

Definition is_select (e : SidePanel.Event) : bool :=
  match e with
  | SidePanel.Select _ => true
  | _ => false
  end.

(** The stale-response rule of the specification, for one scenario: node
    [a] is selected and stays selected during the events [es], in which
    the request [r] is issued; then node [b] is selected; then the response
    to [r] arrives. The rule wants the panel's content to be what it was
    before the response. *)
Definition late_response_dropped (st : SidePanel.State) (a b : Node)
    (es : list SidePanel.Event) (r : SidePanel.Request)
    (resp : SidePanel.Response) : Prop :=
  id a ≠ id b →
  forallb (λ e, negb (is_select e)) es = true →
  r ∈ (SidePanel.run (SidePanel.Select (Some a) :: es) st).2 →
  let st' :=
    (SidePanel.run (SidePanel.Select (Some a) :: es
                      ++ [SidePanel.Select (Some b)]) st).1 in
  content (SidePanel.settle r resp st') = content st'.

(** [r] is half the diagonal of a [w] by [h] box, plus 8:
    [r = sqrt (w^2 + h^2) / 2 + 8], said without the square root. *)
Definition is_half_diagonal_plus_padding (w h r : Q) : Prop :=
  (8 <= r ∧ (2 * (r - 8)) ^ 2 == w ^ 2 + h ^ 2)%Q.

(** ** Sample data *)

Definition sample_concept (name rel sys : string) (d : Z) : MedicalConcept :=
  {| concept := lit name; relation := lit rel;
     note := lit "A one-line note."; difficulty := d;
     system := Some (lit sys) |}.

(** Ten concepts, as the generative service returns them for
    "Diabetes Mellitus". *)
Definition diabetes_concepts : list MedicalConcept :=
  [ sample_concept "Insulin Resistance" "pathophysiology" "Endocrine" 3;
    sample_concept "Hyperglycemia" "symptom" "Endocrine" 2;
    sample_concept "Polyuria" "symptom" "Renal" 1;
    sample_concept "Diabetic Ketoacidosis" "complication" "Metabolic" 4;
    sample_concept "Metformin" "treatment" "Pharmacology" 2;
    sample_concept "HbA1c" "diagnosis" "Diagnostics" 2;
    sample_concept "Diabetic Nephropathy" "complication" "Renal" 4;
    sample_concept "Diabetic Retinopathy" "complication" "Nervous" 4;
    sample_concept "Obesity" "risk_factor" "Metabolic" 1;
    sample_concept "Pancreatic Beta Cells" "organ_system" "Endocrine" 3 ].

(** A concept whose relation the service has spelled "Central Topic". *)
Definition mislabelled_concept : MedicalConcept :=
  sample_concept "Insulin" "Central Topic" "Endocrine" 2.

(** The controller after one successful search from its initial state. *)
Definition state_after_search : App.State :=
  App.final
    (App.handleGenerateMap (λ _, Resolved diabetes_concepts)
       App.DEFAULT_TOPIC true App.initial).

(** A space, a tab and a no-break space. *)
Definition blank_topic : JsString := [32; 9; 160]%N.

Definition node_a : Node := App.conceptNode (sample_concept "Polyuria" "symptom" "Renal" 1).
Definition node_b : Node := App.conceptNode (sample_concept "Metformin" "treatment" "Pharmacology" 2).

Definition url_a : JsString := lit "https://upload.wikimedia.org/polyuria.png".

Definition card1 : Flashcard :=
  {| fc_question := lit "What is polyuria?";
     fc_answer := lit "Passing large volumes of urine." |}.
Definition card2 : Flashcard :=
  {| fc_question := lit "Why does glucose cause polyuria?";
     fc_answer := lit "Osmotic diuresis." |}.

(** The panel with [node_a] selected, two cards generated, showing the
    first. *)
Definition deck_at_first_card : SidePanel.State :=
  SidePanel.handlePrevFlashcard
    (SidePanel.generateFlashcardNow (Resolved card2)
      (SidePanel.generateFlashcardNow (Resolved card1)
        (SidePanel.selectNode (Some node_a) SidePanel.initial).1)).

(** A node of the fixed fallback size. *)
Definition unmeasured_node : Node := MindMap.measure None node_a.

(** A resolved and a bare form of the same link. *)
Definition link_bare : Link :=
  {| source := EpId (id node_a); target := EpId (id node_b) |}.
Definition link_resolved : Link :=
  {| source := EpNode node_a; target := EpNode node_b |}.

(** ** Further properties *)

(** The string neither starts nor ends with a whitespace code unit. *)
Definition trimmed (s : JsString) : Prop :=
  (∀ c : N, head s = Some c → is_white_space c = false)
  ∧ (∀ c : N, last s = Some c → is_white_space c = false).

(** A well-kept history: no topic twice, ten entries at most, every entry
    a non-empty trimmed topic. *)
Definition history_ok (h : list JsString) : Prop :=
  NoDup h ∧ length h ≤ 10 ∧ Forall (λ t, t ≠ [] ∧ trimmed t) h.

(** The code unit of the hyphen that [getStableLinkId] puts between the
    two ids. *)
Definition HYPHEN : N := 45%N.

(** An answer counts as submitted only if one was chosen. *)
Definition submitted_answer_ok (st : SidePanel.State) : Prop :=
  SidePanel.isAnswerSubmitted st = true →
  ∃ a : JsString, SidePanel.selectedAnswer st = Some a ∧ a ≠ [].

Definition is_paging (e : SidePanel.Event) : bool :=
  match e with
  | SidePanel.ClickPrev | SidePanel.ClickNext => true
  | _ => false
  end.

(** The cursor points at a card of the deck. *)
Definition cursor_in_deck (st : SidePanel.State) : Prop :=
  (0 ≤ SidePanel.currentFlashcardIndex st
   < Z.of_nat (length (SidePanel.flashcards st)))%Z.

(** More sample data. *)

Definition sample_quiz : QuizQuestion :=
  {| question := lit "Which hormone lowers blood glucose?";
     options := [lit "Insulin"; lit "Glucagon"; lit "Cortisol"; lit "Adrenaline"];
     correctAnswer := lit "Insulin";
     explanation := lit "Insulin drives glucose into cells." |}.

(** The panel showing [sample_quiz] for [node_a], nothing chosen yet. *)
Definition panel_with_quiz : SidePanel.State :=
  SidePanel.generateQuizNow (Resolved sample_quiz)
    (SidePanel.selectNode (Some node_a) SidePanel.initial).1.

(** The panel with [node_a] selected and two cards, showing the second. *)
Definition deck_at_second_card : SidePanel.State :=
  SidePanel.generateFlashcardNow (Resolved card2)
    (SidePanel.generateFlashcardNow (Resolved card1)
      (SidePanel.selectNode (Some node_a) SidePanel.initial).1).

Definition idle_simulation : MindMap.Simulation :=
  {| MindMap.alphaTarget := 0; MindMap.running := false |}.

(** [node_a] measured and placed by the layout. *)
Definition placed_node : Node :=
  {| id := id node_a; width := Some 110%Q; height := Some 44%Q;
     color := color node_a; data := data node_a;
     x := Some 200%Q; y := Some 150%Q; vx := Some 0%Q; vy := Some 0%Q;
     fx := None; fy := None |}.

Definition wiki_page_with_image : WikipediaService.Page :=
  {| WikipediaService.thumbnail :=
       Some {| WikipediaService.thumb_source := url_a |} |}.


(** The panel with [node_a] selected and one card generated. *)
Definition deck_one_card : SidePanel.State :=
  SidePanel.generateFlashcardNow (Resolved card1)
    (SidePanel.selectNode (Some node_a) SidePanel.initial).1.

(** ** Strings *)

Lemma trimStart_white (s : JsString) :
  Forall (λ c, is_white_space c = true) s → trimStart s = [].
Proof.
  induction 1 as [|c s Hc _ IH]; simpl; [reflexivity|].
  rewrite Hc. exact IH.
Qed.

Lemma trim_white (s : JsString) :
  Forall (λ c, is_white_space c = true) s → trim s = [].
Proof.
  intros H. unfold trim, trimEnd. rewrite (trimStart_white s H). reflexivity.
Qed.

Lemma truthy_true (s : JsString) : s ≠ [] → truthy s = true.
Proof. destruct s; [congruence | reflexivity]. Qed.

Example white_space_hair_space : is_white_space 8202 = true.
Proof. reflexivity. Qed.

Example white_space_not_zero_width_space : is_white_space 8203 = false.
Proof. reflexivity. Qed.

Example white_space_not_next_line : is_white_space 133 = false.
Proof. reflexivity. Qed.

Lemma trimStart_id (s : JsString) (c : N) :
  head s = Some c → is_white_space c = false → trimStart s = s.
Proof.
  destruct s as [|c' s]; [discriminate|].
  simpl. intros [= ->] Hc. by rewrite Hc.
Qed.

(** A string that neither starts nor ends with whitespace is its own
    trimmed form. *)
Lemma trim_id (s : JsString) (first final : N) :
  head s = Some first → is_white_space first = false →
  last s = Some final → is_white_space final = false →
  trim s = s.
Proof.
  intros Hfirst Hwf Hfinal Hwl. unfold trim, trimEnd.
  rewrite (trimStart_id s first Hfirst Hwf).
  rewrite (trimStart_id (reverse s) final); [apply reverse_involutive| |done].
  by rewrite head_reverse.
Qed.

(** Such a topic is searched as it was typed. *)
Lemma topicToUse_id (s : JsString) (first final : N) :
  head s = Some first → is_white_space first = false →
  last s = Some final → is_white_space final = false →
  App.topicToUse s = s.
Proof.
  intros Hfirst Hwf Hfinal Hwl. unfold App.topicToUse.
  destruct s as [|c s]; [discriminate|]. simpl truthy. cbv iota.
  by apply (trim_id _ first final).
Qed.

(** The key that [processConcepts] reads the colour with is always a
    property of [systemColors]. *)
Lemma systemKey_defined (c : MedicalConcept) :
  is_Some (get_property App.systemColors (App.systemKey c)).
Proof.
  unfold App.systemKey. destruct (system c) as [s|]; [|by eexists].
  destruct (truthy s && truthy_property (get_property App.systemColors s))
    eqn:Hs; [|by eexists].
  apply andb_prop in Hs as [_ Hs].
  destruct (get_property App.systemColors s); [by eexists | discriminate].
Qed.

(** ** processConcepts *)

Section ProcessConcepts.

Variable centralTopic : JsString.

Lemma fold_pushConcept (concepts : list MedicalConcept)
    (acc : list Node * list Link) :
  fold_left (App.pushConcept centralTopic) concepts acc
  = (acc.1 ++ (App.conceptNode <$> concepts),
     acc.2 ++ (App.conceptLink centralTopic <$> concepts)).
Proof.
  revert acc.
  induction concepts as [|c concepts IH]; intros [ns ls]; simpl.
  - by rewrite !app_nil_r.
  - rewrite IH. simpl. by rewrite <- !app_assoc.
Qed.

Lemma processConcepts_nodes (concepts : list MedicalConcept) :
  nodes (App.processConcepts concepts centralTopic)
  = App.centralNode centralTopic :: (App.conceptNode <$> concepts).
Proof. unfold App.processConcepts. by rewrite fold_pushConcept. Qed.

Lemma processConcepts_links (concepts : list MedicalConcept) :
  links (App.processConcepts concepts centralTopic)
  = (App.conceptLink centralTopic <$> concepts).
Proof. unfold App.processConcepts. by rewrite fold_pushConcept. Qed.

End ProcessConcepts.

(** C1. For every topic and every list of [n] concepts, the graph that
    [processConcepts] builds has [n + 1] nodes, the central node first and
    then one node per concept in input order, and [n] links; the source of
    every link is the central topic id, which is the id of the central
    node, and the target of the i-th link is the name of the i-th
    concept. *)
Theorem processConcepts_star (concepts : list MedicalConcept)
    (centralTopic : JsString) (n : nat) :
  length concepts = n →
  let g := App.processConcepts concepts centralTopic in
  length (nodes g) = n + 1
  ∧ length (links g) = n
  ∧ nodes g !! 0 = Some (App.centralNode centralTopic)
  ∧ id (App.centralNode centralTopic) = centralTopic
  ∧ (∀ i : nat, nodes g !! (S i) = App.conceptNode <$> concepts !! i)
  ∧ (∀ c : MedicalConcept,
       id (App.conceptNode c) = concept c ∧ data (App.conceptNode c) = c)
  ∧ (∀ i : nat,
       links g !! i
       = (λ c, {| source := EpId centralTopic; target := EpId (concept c) |})
           <$> concepts !! i)
  ∧ (∀ l : Link, l ∈ links g → source l = EpId centralTopic).
Proof.
  intros Hn g. subst g.
  rewrite processConcepts_nodes, processConcepts_links.
  repeat split.
  - simpl. rewrite length_fmap. lia.
  - by rewrite length_fmap.
  - intros i. simpl. by rewrite list_lookup_fmap.
  - intros i. by rewrite list_lookup_fmap.
  - intros l Hl. apply list_elem_of_fmap in Hl as (c & -> & _). reflexivity.
Qed.

Lemma processConcepts_star_witness :
  length diabetes_concepts = 10
  ∧ length (nodes (App.processConcepts diabetes_concepts App.DEFAULT_TOPIC)) = 11
  ∧ length (links (App.processConcepts diabetes_concepts App.DEFAULT_TOPIC)) = 10.
Proof.
  split; [reflexivity|].
  destruct (processConcepts_star diabetes_concepts App.DEFAULT_TOPIC 10 eq_refl)
    as (Hnodes & Hlinks & _).
  split; [exact Hnodes | exact Hlinks].
Defined.

(** A concept that the service labels "Central Topic" gives the graph a
    second node with that relation. *)
Lemma central_node_not_unique :
  ¬ central_node_invariant
      (App.processConcepts [mislabelled_concept] App.DEFAULT_TOPIC).
Proof.
  intros (i & c & _ & _ & _ & Huniq & _).
  assert (H0 : 0 = i).
  { apply (Huniq 0 (App.centralNode App.DEFAULT_TOPIC)); reflexivity. }
  assert (H1 : 1 = i).
  { apply (Huniq 1 (App.conceptNode mislabelled_concept)); reflexivity. }
  congruence.
Qed.

(** C2, amended. When no concept returned by the service has the relation
    "Central Topic", the graph of [processConcepts] has exactly one node
    with that relation, the synthesized central node; its difficulty is 0
    and a link joins it to every other node of the graph. *)
Theorem processConcepts_central_node (concepts : list MedicalConcept)
    (centralTopic : JsString) :
  Forall (λ c, relation c ≠ lit "Central Topic") concepts →
  central_node_invariant (App.processConcepts concepts centralTopic).
Proof.
  intros Hrel. unfold central_node_invariant.
  rewrite processConcepts_nodes, processConcepts_links.
  exists 0, (App.centralNode centralTopic).
  split; [reflexivity|]. split; [reflexivity|]. split; [reflexivity|].
  split.
  - intros [|j] m Hm Hcentral; [reflexivity|]. exfalso.
    simpl in Hm. rewrite list_lookup_fmap in Hm.
    destruct (concepts !! j) as [c|] eqn:Hc; [|discriminate].
    simpl in Hm. injection Hm as <-.
    rewrite Forall_lookup in Hrel. exact (Hrel j c Hc Hcentral).
  - intros [|j] m Hm Hj; [congruence|].
    simpl in Hm. rewrite list_lookup_fmap in Hm.
    destruct (concepts !! j) as [c|] eqn:Hc; [|discriminate].
    simpl in Hm. injection Hm as <-.
    exists (App.conceptLink centralTopic c). split.
    + apply list_elem_of_fmap. exists c. split; [reflexivity|].
      by apply list_elem_of_lookup_2 with j.
    + left. split; simpl; constructor.
Qed.

Lemma processConcepts_central_node_witness :
  Forall (λ c, relation c ≠ lit "Central Topic") diabetes_concepts
  ∧ central_node_invariant
      (App.processConcepts diabetes_concepts App.DEFAULT_TOPIC).
Proof.
  assert (H : Forall (λ c, relation c ≠ lit "Central Topic") diabetes_concepts).
  { repeat constructor; discriminate. }
  split; [exact H|].
  exact (processConcepts_central_node diabetes_concepts App.DEFAULT_TOPIC H).
Defined.

(** ** handleGenerateMap *)

Section HandleGenerateMap.

Variable generateMedicalMap : JsString → Outcome (list MedicalConcept).
Variables (currentTopic : JsString) (addToHistory : bool) (st : App.State).

Let t := App.topicToUse currentTopic.

Lemma handleGenerateMap_resolved (concepts : list MedicalConcept) :
  t ≠ [] → generateMedicalMap t = Resolved concepts →
  App.handleGenerateMap generateMedicalMap currentTopic addToHistory st
  = {| App.final :=
         App.finish
           (App.onConcepts concepts t addToHistory (App.beginSearch t st));
       App.requested := [t] |}.
Proof.
  intros Ht Hsvc. unfold App.handleGenerateMap. fold t.
  rewrite (truthy_true t Ht). simpl. by rewrite Hsvc.
Qed.

Lemma handleGenerateMap_rejected :
  t ≠ [] → generateMedicalMap t = Rejected →
  App.handleGenerateMap generateMedicalMap currentTopic addToHistory st
  = {| App.final := App.finish (App.onFailure (App.beginSearch t st));
       App.requested := [t] |}.
Proof.
  intros Ht Hsvc. unfold App.handleGenerateMap. fold t.
  rewrite (truthy_true t Ht). simpl. by rewrite Hsvc.
Qed.

End HandleGenerateMap.

(** C4. When the generative map service call made by [handleGenerateMap]
    throws, the call leaves the displayed graph empty, the search history
    as it was before the call, and a user-visible error message set;
    nothing of the failed search is kept. *)
Theorem failed_search_clears_graph
    (generateMedicalMap : JsString → Outcome (list MedicalConcept))
    (currentTopic : JsString) (addToHistory : bool) (st : App.State) :
  let t := App.topicToUse currentTopic in
  t ≠ [] →
  generateMedicalMap t = Rejected →
  let r := App.handleGenerateMap generateMedicalMap currentTopic addToHistory st in
  App.requested r = [t]
  ∧ App.graphData (App.final r) = {| nodes := []; links := [] |}
  ∧ App.searchHistory (App.final r) = App.searchHistory st
  ∧ (∃ message : JsString,
       App.apiError (App.final r) = Some message ∧ message ≠ [])
  ∧ App.isLoading (App.final r) = false.
Proof.
  intros t Ht Hsvc r. subst r t.
  rewrite (handleGenerateMap_rejected _ _ _ _ Ht Hsvc). simpl.
  repeat split.
  exists App.API_ERROR_MAP. split; [reflexivity | discriminate].
Qed.

(** ** The search history *)

Section History.

Variable t : JsString.

Lemma filter_none {A} (P : A → Prop) `{!∀ x, Decision (P x)} (l : list A) :
  Forall (λ x, ¬ P x) l → filter P l = [].
Proof.
  induction 1 as [|a l Ha _ IH]; [reflexivity|].
  by rewrite filter_cons_False.
Qed.

Lemma newHistory_cons (h : list JsString) :
  App.newHistory t h = t :: take 9 (filter (λ t', t' ≠ t) h).
Proof. reflexivity. Qed.

Lemma newHistory_rest_fresh (h : list JsString) :
  Forall (λ t', t' ≠ t) (take 9 (filter (λ t', t' ≠ t) h)).
Proof.
  apply Forall_take, Forall_forall. intros u Hu.
  by apply list_elem_of_filter in Hu as [Hne _].
Qed.

Lemma newHistory_occurrences (h : list JsString) :
  occurrences t (App.newHistory t h) = 1.
Proof.
  rewrite newHistory_cons. unfold occurrences.
  rewrite filter_cons_True by reflexivity. simpl. f_equal.
  rewrite filter_none; [reflexivity|].
  eapply Forall_impl; [apply newHistory_rest_fresh|]. auto.
Qed.

Lemma newHistory_length (h : list JsString) :
  length (App.newHistory t h) ≤ 10.
Proof. unfold App.newHistory. rewrite length_take. lia. Qed.

Lemma newHistory_rest_order (h : list JsString) :
  take 9 (filter (λ t', t' ≠ t) h) `sublist_of` h.
Proof.
  transitivity (filter (λ t', t' ≠ t) h);
    [apply sublist_take | apply sublist_filter].
Qed.

End History.

(** C5. After a search that succeeds with [addToHistory] enabled, the
    history has the searched topic as its first element and nowhere else;
    after it come the prior entries other than that topic, in their prior
    order, as many as fit; the history has at most 10 entries. Searching
    the same topic a second time leaves one entry for it, at the front.
    The searched topic is the one the service is called with: the input,
    trimmed, or the default topic for the empty input. *)
Theorem history_most_recent_first
    (generateMedicalMap : JsString → Outcome (list MedicalConcept))
    (currentTopic : JsString) (st : App.State)
    (concepts : list MedicalConcept) :
  let t := App.topicToUse currentTopic in
  t ≠ [] →
  generateMedicalMap t = Resolved concepts →
  let st' :=
    App.final (App.handleGenerateMap generateMedicalMap currentTopic true st) in
  let prior := filter (λ t', t' ≠ t) (App.searchHistory st) in
  App.topic st' = t
  ∧ App.searchHistory st' = t :: take 9 prior
  ∧ occurrences t (App.searchHistory st') = 1
  ∧ take 9 prior `sublist_of` App.searchHistory st
  ∧ (length prior ≤ 9 → App.searchHistory st' = t :: prior)
  ∧ length (App.searchHistory st') ≤ 10
  ∧ (∀ (again : JsString → Outcome (list MedicalConcept))
       (concepts' : list MedicalConcept),
       again t = Resolved concepts' →
       let st'' := App.final (App.handleGenerateMap again currentTopic true st') in
       head (App.searchHistory st'') = Some t
       ∧ occurrences t (App.searchHistory st'') = 1
       ∧ length (App.searchHistory st'') ≤ 10).
Proof.
  intros t Ht Hsvc st' prior.
  assert (Hst' : App.searchHistory st' = App.newHistory t (App.searchHistory st)).
  { subst st' t. by rewrite (handleGenerateMap_resolved _ _ _ _ _ Ht Hsvc). }
  split.
  { subst st' t. by rewrite (handleGenerateMap_resolved _ _ _ _ _ Ht Hsvc). }
  rewrite Hst'. split; [apply newHistory_cons|].
  split; [apply newHistory_occurrences|].
  split; [apply newHistory_rest_order|].
  split.
  { intros Hlen. rewrite newHistory_cons. fold prior.
    by rewrite take_ge by lia. }
  split; [apply newHistory_length|].
  intros again concepts' Hagain st''.
  assert (Hst'' :
    App.searchHistory st'' = App.newHistory t (App.searchHistory st')).
  { subst st'' t. by rewrite (handleGenerateMap_resolved _ _ _ _ _ Ht Hagain). }
  rewrite Hst''. split; [reflexivity|].
  split; [apply newHistory_occurrences | apply newHistory_length].
Qed.

Example trim_padded : trim (lit "  Asthma ") = lit "Asthma".
Proof. reflexivity. Qed.

Example topicToUse_empty : App.topicToUse [] = App.DEFAULT_TOPIC.
Proof. reflexivity. Qed.

Lemma failed_search_clears_graph_witness :
  let r := App.handleGenerateMap (λ _, Rejected) (lit "Asthma") true
             state_after_search in
  App.topicToUse (lit "Asthma") ≠ []
  ∧ nodes (App.graphData state_after_search) ≠ []
  ∧ App.graphData (App.final r) = {| nodes := []; links := [] |}
  ∧ App.searchHistory (App.final r) = App.searchHistory state_after_search.
Proof.
  assert (Ht : App.topicToUse (lit "Asthma") ≠ []) by (vm_compute; discriminate).
  destruct (failed_search_clears_graph (λ _, Rejected) (lit "Asthma") true
              state_after_search Ht eq_refl) as (_ & Hgraph & Hhistory & _).
  split; [exact Ht|]. split; [vm_compute; discriminate|].
  split; [exact Hgraph | exact Hhistory].
Defined.

Lemma history_most_recent_first_witness :
  App.topicToUse (lit " Asthma") ≠ []
  ∧ App.searchHistory
      (App.final (App.handleGenerateMap (λ _, Resolved diabetes_concepts)
                    (lit " Asthma") true state_after_search))
    = [lit "Asthma"; lit "Diabetes Mellitus"].
Proof.
  assert (Ht : App.topicToUse (lit " Asthma") ≠ []) by (vm_compute; discriminate).
  split; [exact Ht|].
  destruct (history_most_recent_first (λ _, Resolved diabetes_concepts)
              (lit " Asthma") state_after_search diabetes_concepts Ht eq_refl)
    as (_ & Hhistory & _).
  rewrite Hhistory. reflexivity.
Defined.

(** C10. A topic that is not empty but made of whitespace only makes
    [handleGenerateMap] return at once: the service is not called and the
    state (graph, history, loading flag, selection, error message and the
    rest) is what it was. The empty topic is replaced by the default topic,
    which is searched. *)
Theorem blank_topic_ignored
    (generateMedicalMap : JsString → Outcome (list MedicalConcept))
    (currentTopic : JsString) (addToHistory : bool) (st : App.State) :
  currentTopic ≠ [] →
  Forall (λ c, is_white_space c = true) currentTopic →
  App.handleGenerateMap generateMedicalMap currentTopic addToHistory st
  = {| App.final := st; App.requested := [] |}
  ∧ App.requested
      (App.handleGenerateMap generateMedicalMap [] addToHistory st)
    = [App.DEFAULT_TOPIC]
  ∧ App.topic
      (App.final (App.handleGenerateMap generateMedicalMap [] addToHistory st))
    = App.DEFAULT_TOPIC.
Proof.
  intros Hne Hwhite. split; [|split].
  - unfold App.handleGenerateMap, App.topicToUse.
    rewrite (truthy_true currentTopic Hne).
    by rewrite (trim_white currentTopic Hwhite).
  - reflexivity.
  - unfold App.handleGenerateMap.
    change (App.topicToUse []) with App.DEFAULT_TOPIC.
    change (negb (truthy App.DEFAULT_TOPIC)) with false. cbv iota.
    destruct (generateMedicalMap App.DEFAULT_TOPIC); [destruct addToHistory|];
      reflexivity.
Qed.

Lemma blank_topic_ignored_witness :
  Forall (λ c, is_white_space c = true) blank_topic
  ∧ App.handleGenerateMap (λ _, Resolved diabetes_concepts) blank_topic true
      state_after_search
    = {| App.final := state_after_search; App.requested := [] |}.
Proof.
  assert (Hwhite : Forall (λ c, is_white_space c = true) blank_topic).
  { repeat constructor. }
  split; [exact Hwhite|].
  refine (proj1 (blank_topic_ignored (λ _, Resolved diabetes_concepts)
                   blank_topic true state_after_search _ Hwhite)).
  discriminate.
Defined.

(** ** getStableLinkId *)

Lemma getStableLinkId_denotes (l : Link) (s t : JsString) :
  denotes (source l) s → denotes (target l) t →
  MindMap.getStableLinkId l = s ++ lit "-" ++ t.
Proof.
  destruct l as [src tgt]. simpl. intros Hs Ht.
  inversion Hs; subst; inversion Ht; subst; reflexivity.
Qed.

(** C3. [getStableLinkId] returns "sourceId-targetId", whichever way each
    endpoint is represented: two links whose sources denote the same id
    and whose targets denote the same id, as a bare id string or as a node
    with that id, have the same stable link identity. *)
Theorem getStableLinkId_stable (l1 l2 : Link) (s t : JsString) :
  denotes (source l1) s → denotes (target l1) t →
  denotes (source l2) s → denotes (target l2) t →
  MindMap.getStableLinkId l1 = s ++ lit "-" ++ t
  ∧ MindMap.getStableLinkId l1 = MindMap.getStableLinkId l2.
Proof.
  intros Hs1 Ht1 Hs2 Ht2.
  rewrite (getStableLinkId_denotes l1 s t Hs1 Ht1).
  by rewrite (getStableLinkId_denotes l2 s t Hs2 Ht2).
Qed.

Lemma getStableLinkId_stable_witness :
  MindMap.getStableLinkId link_bare = lit "Polyuria-Metformin"
  ∧ MindMap.getStableLinkId link_bare = MindMap.getStableLinkId link_resolved.
Proof.
  apply (getStableLinkId_stable link_bare link_resolved
           (lit "Polyuria") (lit "Metformin")).
  - exact (denotes_bare (id node_a)).
  - exact (denotes_bare (id node_b)).
  - exact (denotes_node node_a).
  - exact (denotes_node node_b).
Defined.

(** ** The collision radius *)

Lemma orZero_Some (q : Q) : (MindMap.orZero (Some q) == q)%Q.
Proof.
  unfold MindMap.orZero. destruct (Qeq_bool q 0) eqn:Hq; [|reflexivity].
  symmetry. by apply Qeq_bool_eq.
Qed.

(** At the fallback size of 60 by 40 the radius is 38, which is not 8 more
    than half the diagonal of the box. *)
Lemma collide_radius_not_half_diagonal :
  width unmeasured_node = Some 60%Q
  ∧ height unmeasured_node = Some 40%Q
  ∧ (MindMap.collideRadiusInit unmeasured_node == 38)%Q
  ∧ ¬ is_half_diagonal_plus_padding 60 40
        (MindMap.collideRadiusInit unmeasured_node).
Proof.
  split; [reflexivity|]. split; [reflexivity|]. split; [reflexivity|].
  intros [_ H]. vm_compute in H. discriminate H.
Qed.

(** C6, amended. For a node of measured width [w] and height [h] the
    radius of the collision force is half the larger of [w] and [h], plus
    a padding of 8, when the simulation is created and after each rebind
    alike. *)
Theorem collide_radius_half_larger_side (d : Node) (w h : Q) :
  width d = Some w → height d = Some h →
  (MindMap.collideRadiusInit d == Qmax w h / 2 + 8
   ∧ MindMap.collideRadiusUpdate d == Qmax w h / 2 + 8)%Q.
Proof.
  intros Hw Hh.
  unfold MindMap.collideRadiusInit, MindMap.collideRadiusUpdate.
  rewrite Hw, Hh.
  assert (Hmax : (Qmax (MindMap.orZero (Some w)) (MindMap.orZero (Some h))
                  == Qmax w h)%Q).
  { apply Q.max_compat; apply orZero_Some. }
  rewrite Hmax. split; reflexivity.
Qed.

Lemma collide_radius_half_larger_side_witness :
  (MindMap.collideRadiusInit unmeasured_node == Qmax 60 40 / 2 + 8
   ∧ MindMap.collideRadiusUpdate unmeasured_node == Qmax 60 40 / 2 + 8)%Q.
Proof.
  apply (collide_radius_half_larger_side unmeasured_node 60 40);
    reflexivity.
Defined.

(** ** The side panel *)

(** [node_a] is selected, then [node_b]; the image fetched for [node_a]
    arrives afterwards and becomes the image of the panel that shows
    [node_b]. *)
Lemma late_image_overwrites :
  ¬ late_response_dropped SidePanel.initial node_a node_b []
      (SidePanel.ImageRequest (concept (data node_a)))
      (SidePanel.ImageResponse (Some url_a)).
Proof.
  unfold late_response_dropped. intros H.
  assert (Hids : id node_a ≠ id node_b) by (vm_compute; discriminate).
  specialize (H Hids eq_refl).
  assert (Hissued :
    SidePanel.ImageRequest (concept (data node_a))
    ∈ (SidePanel.run [SidePanel.Select (Some node_a)] SidePanel.initial).2).
  { simpl. apply list_elem_of_here. }
  specialize (H Hissued). vm_compute in H. discriminate H.
Qed.

(** C7, amended. A response that arrives after another node has been
    selected is not discarded. Selecting a node resets the image, the quiz
    and the flashcards at that moment; a response that arrives later is
    applied to the panel as it then is, whichever node is selected and
    whichever node its request was made for: an image becomes the panel's
    image and ends the image loading state, a quiz becomes the panel's
    quiz, a flashcard is appended to the list and the index is set to the
    length of the list that the request was made with. *)
Theorem late_response_applied (st : SidePanel.State) (b : Node) :
  (let st' := (SidePanel.selectNode (Some b) st).1 in
   SidePanel.selectedNode st' = Some b
   ∧ content st' = (None, None, [], 0%Z)
   ∧ SidePanel.isImageLoading st' = true)
  ∧ (∀ (c : JsString) (url : option JsString),
       let st' :=
         SidePanel.settle (SidePanel.ImageRequest c)
           (SidePanel.ImageResponse url) st in
       SidePanel.selectedNode st' = SidePanel.selectedNode st
       ∧ SidePanel.imageUrl st' = url
       ∧ SidePanel.isImageLoading st' = false)
  ∧ (∀ (subject : MedicalConcept) (q : QuizQuestion),
       let st' :=
         SidePanel.settle (SidePanel.QuizRequest subject)
           (SidePanel.QuizResponse (Resolved q)) st in
       SidePanel.selectedNode st' = SidePanel.selectedNode st
       ∧ SidePanel.quiz st' = Some q
       ∧ SidePanel.isQuizLoading st' = false)
  ∧ (∀ (subject : MedicalConcept) (captured : list Flashcard)
       (card : Flashcard),
       let st' :=
         SidePanel.settle (SidePanel.FlashcardRequest subject captured)
           (SidePanel.FlashcardResponse (Resolved card)) st in
       SidePanel.selectedNode st' = SidePanel.selectedNode st
       ∧ SidePanel.flashcards st' = SidePanel.flashcards st ++ [card]
       ∧ SidePanel.currentFlashcardIndex st' = Z.of_nat (length captured)
       ∧ SidePanel.isFlashcardLoading st' = false).
Proof.
  split; [vm_compute; repeat split|].
  split; [|split]; intros; subst st'; repeat split.
Qed.

Lemma generateFlashcardNow_selected (st : SidePanel.State) (n : Node)
    (o : Outcome Flashcard) :
  SidePanel.selectedNode st = Some n →
  SidePanel.generateFlashcardNow o st
  = SidePanel.flashcardSettled (SidePanel.flashcards st) o
      (SidePanel.setApiError None
        (SidePanel.setIsFlashcardFlipped false
          (SidePanel.setIsFlashcardLoading true st))).
Proof.
  intros Hn. unfold SidePanel.generateFlashcardNow,
    SidePanel.handleGenerateFlashcard.
  rewrite Hn. reflexivity.
Qed.

Lemma flashcardSettled_cards (captured : list Flashcard) (card : Flashcard)
    (st : SidePanel.State) :
  SidePanel.flashcards
    (SidePanel.flashcardSettled captured (Resolved card) st)
  = SidePanel.flashcards st ++ [card]
  ∧ SidePanel.currentFlashcardIndex
      (SidePanel.flashcardSettled captured (Resolved card) st)
    = Z.of_nat (length captured)
  ∧ SidePanel.isFlashcardLoading
      (SidePanel.flashcardSettled captured (Resolved card) st) = false
  ∧ SidePanel.selectedNode
      (SidePanel.flashcardSettled captured (Resolved card) st)
    = SidePanel.selectedNode st.
Proof. destruct st. cbn. repeat split. Qed.





(** C9. When the handler of the next-flashcard control runs with the
    current index strictly below the last position, it takes one from the
    index instead of adding one; at index 0, which then means a list of at
    least two cards, the index becomes -1. *)
Theorem next_flashcard_pages_backward (st : SidePanel.State) :
  (SidePanel.currentFlashcardIndex st
   < Z.of_nat (length (SidePanel.flashcards st)) - 1)%Z →
  let st' := SidePanel.handleNextFlashcard st in
  SidePanel.currentFlashcardIndex st'
  = (SidePanel.currentFlashcardIndex st - 1)%Z
  ∧ SidePanel.currentFlashcardIndex st'
    ≠ (SidePanel.currentFlashcardIndex st + 1)%Z
  ∧ SidePanel.flashcards st' = SidePanel.flashcards st
  ∧ SidePanel.isFlashcardFlipped st' = false
  ∧ (SidePanel.currentFlashcardIndex st = 0%Z →
     2 ≤ length (SidePanel.flashcards st)
     ∧ SidePanel.currentFlashcardIndex st' = (-1)%Z
     ∧ SidePanel.currentFlashcard st' = None).
Proof.
  intros Hlt st'. subst st'. unfold SidePanel.handleNextFlashcard.
  apply Z.ltb_lt in Hlt as Hb. rewrite Hb. simpl.
  split; [reflexivity|]. split; [lia|].
  split; [reflexivity|]. split; [reflexivity|].
  intros H0. split; [lia|].
  unfold SidePanel.currentFlashcard. simpl. rewrite H0.
  split; reflexivity.
Qed.

Lemma next_flashcard_pages_backward_witness :
  length (SidePanel.flashcards deck_at_first_card) = 2
  ∧ SidePanel.currentFlashcardIndex deck_at_first_card = 0%Z
  ∧ SidePanel.currentFlashcardIndex
      (SidePanel.handleNextFlashcard deck_at_first_card) = (-1)%Z.
Proof.
  split; [reflexivity|]. split; [reflexivity|].
  assert (Hlt :
    (SidePanel.currentFlashcardIndex deck_at_first_card
     < Z.of_nat (length (SidePanel.flashcards deck_at_first_card)) - 1)%Z)
    by (vm_compute; reflexivity).
  destruct (next_flashcard_pages_backward deck_at_first_card Hlt)
    as (_ & _ & _ & _ & Hzero).
  destruct (Hzero eq_refl) as (_ & Hminus & _). exact Hminus.
Defined.

(** * Further properties of the code *)

(** ** trim *)

Lemma head_trimStart (s : JsString) (c : N) :
  head (trimStart s) = Some c → is_white_space c = false.
Proof.
  induction s as [|a s IH]; simpl; [discriminate|].
  destruct (is_white_space a) eqn:Ha; [exact IH|].
  simpl. by intros [= <-].
Qed.

Lemma trimStart_snoc (l : JsString) (c : N) :
  is_white_space c = false → trimStart (l ++ [c]) = trimStart l ++ [c].
Proof.
  intros Hc. induction l as [|a l IH]; simpl.
  - by rewrite Hc.
  - by destruct (is_white_space a).
Qed.

Lemma trimEnd_cons (c : N) (s : JsString) :
  is_white_space c = false → trimEnd (c :: s) = c :: trimEnd s.
Proof.
  intros Hc. unfold trimEnd.
  by rewrite reverse_cons, (trimStart_snoc _ _ Hc), reverse_snoc.
Qed.

Lemma last_trimEnd (s : JsString) (c : N) :
  last (trimEnd s) = Some c → is_white_space c = false.
Proof. unfold trimEnd. rewrite last_reverse. apply head_trimStart. Qed.

Lemma trim_trimmed (s : JsString) : trimmed (trim s).
Proof.
  split; [|intros c; apply last_trimEnd].
  intros c. unfold trim.
  destruct (trimStart s) as [|a u] eqn:Hu; [discriminate|].
  assert (Ha : is_white_space a = false).
  { apply (head_trimStart s). by rewrite Hu. }
  rewrite (trimEnd_cons _ _ Ha). simpl. by intros [= <-].
Qed.

Lemma trimmed_trim (s : JsString) : trimmed s → trim s = s.
Proof.
  intros [Hhead Hlast]. destruct s as [|a s]; [reflexivity|].
  destruct (last (a :: s)) as [z|] eqn:Hz.
  - apply (trim_id _ a z); [reflexivity | by apply Hhead | exact Hz
                            | by apply Hlast].
  - by apply last_None in Hz.
Qed.

Lemma trim_idempotent (s : JsString) : trim (trim s) = trim s.
Proof. apply trimmed_trim, trim_trimmed. Qed.

Lemma topicToUse_fixed (currentTopic : JsString) :
  App.topicToUse currentTopic ≠ [] →
  App.topicToUse (App.topicToUse currentTopic) = App.topicToUse currentTopic.
Proof.
  intros Ht. unfold App.topicToUse at 1.
  rewrite (truthy_true _ Ht). unfold App.topicToUse. apply trim_idempotent.
Qed.

(** ** The controller *)

Lemma handleGenerateMap_blank
    (generateMedicalMap : JsString → Outcome (list MedicalConcept))
    (currentTopic : JsString) (addToHistory : bool) (st : App.State) :
  App.topicToUse currentTopic = [] →
  App.handleGenerateMap generateMedicalMap currentTopic addToHistory st
  = {| App.final := st; App.requested := [] |}.
Proof. intros Ht. unfold App.handleGenerateMap. by rewrite Ht. Qed.

(** The three ways a call ends. *)
Lemma handleGenerateMap_cases
    (generateMedicalMap : JsString → Outcome (list MedicalConcept))
    (currentTopic : JsString) (addToHistory : bool) (st : App.State) :
  let t := App.topicToUse currentTopic in
  let r := App.handleGenerateMap generateMedicalMap currentTopic addToHistory st in
  (t = [] ∧ r = {| App.final := st; App.requested := [] |})
  ∨ (t ≠ [] ∧ ∃ concepts, generateMedicalMap t = Resolved concepts
       ∧ r = {| App.final :=
                  App.finish (App.onConcepts concepts t addToHistory
                                (App.beginSearch t st));
                App.requested := [t] |})
  ∨ (t ≠ [] ∧ generateMedicalMap t = Rejected
       ∧ r = {| App.final := App.finish (App.onFailure (App.beginSearch t st));
                App.requested := [t] |}).
Proof.
  intros t r. subst r.
  destruct (decide (t = [])) as [Ht|Ht].
  - left. split; [exact Ht|]. by apply handleGenerateMap_blank.
  - right. destruct (generateMedicalMap t) as [concepts|] eqn:Hsvc.
    + left. split; [exact Ht|]. exists concepts. split; [reflexivity|].
      by apply handleGenerateMap_resolved.
    + right. split; [exact Ht|]. split; [reflexivity|].
      by apply handleGenerateMap_rejected.
Qed.

Lemma handleGenerateMap_history
    (generateMedicalMap : JsString → Outcome (list MedicalConcept))
    (currentTopic : JsString) (addToHistory : bool) (st : App.State) :
  let t := App.topicToUse currentTopic in
  let h' :=
    App.searchHistory
      (App.final (App.handleGenerateMap generateMedicalMap currentTopic
                    addToHistory st)) in
  h' = App.searchHistory st
  ∨ (t ≠ [] ∧ addToHistory = true
     ∧ h' = App.newHistory t (App.searchHistory st)).
Proof.
  intros t h'. subst h'.
  destruct (handleGenerateMap_cases generateMedicalMap currentTopic
              addToHistory st)
    as [[_ ->]|[(Ht & concepts & _ & ->)|(_ & _ & ->)]];
    [by left| |by left].
  destruct addToHistory; [right|left]; done.
Qed.

Lemma handleGenerateMap_topic
    (generateMedicalMap : JsString → Outcome (list MedicalConcept))
    (currentTopic : JsString) (addToHistory : bool) (st : App.State) :
  App.topicToUse currentTopic ≠ [] →
  App.topic
    (App.final (App.handleGenerateMap generateMedicalMap currentTopic
                  addToHistory st))
  = App.topicToUse currentTopic.
Proof.
  intros Ht.
  destruct (handleGenerateMap_cases generateMedicalMap currentTopic
              addToHistory st)
    as [[Hblank _]|[(_ & concepts & _ & ->)|(_ & _ & ->)]];
    [done| |reflexivity].
  by destruct addToHistory.
Qed.

Lemma newHistory_ok (t : JsString) (h : list JsString) :
  t ≠ [] → trimmed t → history_ok h → history_ok (App.newHistory t h).
Proof.
  intros Ht Htrim (Hdup & _ & Hall).
  split; [|split; [apply newHistory_length|]].
  - rewrite newHistory_cons. apply NoDup_cons. split.
    + intros Hin. pose proof (newHistory_rest_fresh t h) as Hfresh.
      rewrite Forall_forall in Hfresh. by apply (Hfresh t).
    + eapply sublist_NoDup; [exact Hdup | apply newHistory_rest_order].
  - rewrite newHistory_cons. apply Forall_cons. split; [done|].
    apply Forall_forall. intros u Hu. rewrite Forall_forall in Hall.
    apply Hall. eapply elem_of_sublist; [exact Hu|].
    apply newHistory_rest_order.
Qed.

Lemma handleGenerateMap_history_ok
    (generateMedicalMap : JsString → Outcome (list MedicalConcept))
    (currentTopic : JsString) (addToHistory : bool) (st : App.State) :
  history_ok (App.searchHistory st) →
  history_ok
    (App.searchHistory
       (App.final (App.handleGenerateMap generateMedicalMap currentTopic
                     addToHistory st))).
Proof.
  intros Hok.
  destruct (handleGenerateMap_history generateMedicalMap currentTopic
              addToHistory st) as [->|(Ht & _ & ->)]; [exact Hok|].
  apply newHistory_ok; [exact Ht | apply trim_trimmed | exact Hok].
Qed.

Lemma step_history_ok (st : App.State) (e : App.Event) :
  history_ok (App.searchHistory st) →
  history_ok (App.searchHistory (App.step st e)).
Proof.
  intros Hok. destruct e as [v|o|ht o|o|n| | |outside]; simpl; try exact Hok.
  - by apply handleGenerateMap_history_ok.
  - unfold App.handleHistoryClick. by apply handleGenerateMap_history_ok.
  - unfold App.handleFocusClick.
    destruct (App.selectedNode st) as [node|]; [|exact Hok]. simpl.
    by apply handleGenerateMap_history_ok.
  - by destruct outside.
Qed.

(** X1. Whatever [handleGenerateMap] is called with, the service is called
    at most once, and only with a topic that is not empty and neither
    starts nor ends with whitespace: the input trimmed, or the default
    topic for the empty input. *)
Theorem searched_topic_normalised
    (generateMedicalMap : JsString → Outcome (list MedicalConcept))
    (currentTopic : JsString) (addToHistory : bool) (st : App.State) :
  let r := App.handleGenerateMap generateMedicalMap currentTopic addToHistory st in
  length (App.requested r) ≤ 1
  ∧ Forall (λ t, t ≠ [] ∧ trimmed t ∧ t = App.topicToUse currentTopic)
      (App.requested r).
Proof.
  intros r. subst r.
  destruct (handleGenerateMap_cases generateMedicalMap currentTopic
              addToHistory st)
    as [[_ ->]|[(Ht & concepts & _ & ->)|(Ht & _ & ->)]]; simpl;
    (split; [lia|]); repeat constructor; try done; apply trim_trimmed.
Qed.

(** X2. A successful search replaces the displayed graph by the star of
    the returned concepts around the searched topic, whatever was shown
    before; it clears the error message and the selection, shows the
    searched topic in the search box, and ends with the loader, the
    welcome screen and the history list hidden. *)
Theorem successful_search_replaces_graph
    (generateMedicalMap : JsString → Outcome (list MedicalConcept))
    (currentTopic : JsString) (addToHistory : bool) (st : App.State)
    (concepts : list MedicalConcept) :
  let t := App.topicToUse currentTopic in
  t ≠ [] →
  generateMedicalMap t = Resolved concepts →
  let st' :=
    App.final (App.handleGenerateMap generateMedicalMap currentTopic
                 addToHistory st) in
  App.graphData st' = App.processConcepts concepts t
  ∧ nodes (App.graphData st') !! 0 = Some (App.centralNode t)
  ∧ length (nodes (App.graphData st')) = S (length concepts)
  ∧ App.apiError st' = None
  ∧ App.selectedNode st' = None
  ∧ App.topic st' = t
  ∧ App.isLoading st' = false
  ∧ App.initialLoad st' = false
  ∧ App.showHistory st' = false
  ∧ (addToHistory = false → App.searchHistory st' = App.searchHistory st).
Proof.
  intros t Ht Hsvc st'. subst st' t.
  rewrite (handleGenerateMap_resolved _ _ _ _ _ Ht Hsvc).
  assert (Hg : ∀ a,
    App.graphData (App.finish (App.onConcepts concepts
      (App.topicToUse currentTopic) a
      (App.beginSearch (App.topicToUse currentTopic) st)))
    = App.processConcepts concepts (App.topicToUse currentTopic)).
  { by intros []. }
  cbn [App.final]. rewrite Hg, processConcepts_nodes.
  split; [reflexivity|]. split; [reflexivity|].
  split; [simpl; by rewrite length_fmap|].
  destruct addToHistory; repeat split; discriminate.
Qed.

Lemma successful_search_replaces_graph_witness :
  App.topicToUse (lit " Asthma") ≠ []
  ∧ App.graphData
      (App.final (App.handleGenerateMap (λ _, Resolved [mislabelled_concept])
                    (lit " Asthma") false state_after_search))
    = App.processConcepts [mislabelled_concept] (lit "Asthma").
Proof.
  assert (Ht : App.topicToUse (lit " Asthma") ≠ []) by (vm_compute; discriminate).
  split; [exact Ht|].
  exact (proj1 (successful_search_replaces_graph
                  (λ _, Resolved [mislabelled_concept]) (lit " Asthma") false
                  state_after_search [mislabelled_concept] Ht eq_refl)).
Defined.

(** X3. After a search that was made, submitting the search box again
    without typing searches exactly the same topic: the box holds the
    normalised topic, and normalising it again changes nothing. *)
Theorem resubmit_same_topic
    (generateMedicalMap again : JsString → Outcome (list MedicalConcept))
    (currentTopic : JsString) (addToHistory : bool) (st : App.State) :
  let t := App.topicToUse currentTopic in
  t ≠ [] →
  let st' :=
    App.final (App.handleGenerateMap generateMedicalMap currentTopic
                 addToHistory st) in
  App.requested (App.handleSubmit again st') = [t].
Proof.
  intros t Ht st'. unfold App.handleSubmit. subst st'.
  rewrite (handleGenerateMap_topic _ _ _ _ Ht). fold t.
  destruct (handleGenerateMap_cases again t true
              (App.final (App.handleGenerateMap generateMedicalMap
                            currentTopic addToHistory st)))
    as [[Hblank _]|[(_ & concepts & _ & ->)|(_ & _ & ->)]]; simpl.
  - subst t. by rewrite topicToUse_fixed in Hblank.
  - subst t. by rewrite topicToUse_fixed.
  - subst t. by rewrite topicToUse_fixed.
Qed.

Lemma resubmit_same_topic_witness :
  App.topicToUse (lit "  Asthma ") ≠ []
  ∧ App.requested
      (App.handleSubmit (λ _, Rejected)
         (App.final (App.handleGenerateMap (λ _, Resolved diabetes_concepts)
                       (lit "  Asthma ") true App.initial)))
    = [lit "Asthma"].
Proof.
  assert (Ht : App.topicToUse (lit "  Asthma ") ≠ [])
    by (vm_compute; discriminate).
  split; [exact Ht|].
  exact (resubmit_same_topic (λ _, Resolved diabetes_concepts) (λ _, Rejected)
           (lit "  Asthma ") true App.initial Ht).
Defined.

(** X4. Clicking an entry of the history list never changes the history,
    whether the search succeeds, fails or is not made: the list keeps its
    entries and their order. *)
Theorem history_click_keeps_history
    (generateMedicalMap : JsString → Outcome (list MedicalConcept))
    (historyTopic : JsString) (st : App.State) :
  App.searchHistory
    (App.final (App.handleHistoryClick generateMedicalMap historyTopic st))
  = App.searchHistory st.
Proof.
  unfold App.handleHistoryClick.
  destruct (handleGenerateMap_history generateMedicalMap historyTopic false
              (App.setTopic historyTopic st)) as [H|(_ & Hadd & _)];
    [exact H | discriminate Hadd].
Qed.

(** X5. In every session, whatever the user types, searches, clicks or
    focuses and however the service answers, the search history has no
    topic twice, has at most 10 entries, and holds only topics that are
    not empty and neither start nor end with whitespace. *)
Theorem history_always_ok (es : list App.Event) :
  history_ok (App.searchHistory (App.run es App.initial)).
Proof.
  unfold App.run.
  assert (H : ∀ st, history_ok (App.searchHistory st) →
                    history_ok (App.searchHistory (fold_left App.step es st))).
  { induction es as [|e es IH]; intros st Hok; [exact Hok|].
    simpl. apply IH. by apply step_history_ok. }
  apply H. split; [constructor|]. split; [simpl; lia|constructor].
Qed.

(** X6. Focusing on the selected node closes the panel and searches the
    node's concept as a topic with history enabled: when the search
    succeeds the new graph is centred on that topic, which is then the
    first entry of the history. With no node selected nothing happens. *)
Theorem focus_searches_concept
    (generateMedicalMap : JsString → Outcome (list MedicalConcept))
    (st : App.State) (node : Node) :
  App.selectedNode st = Some node →
  let t := App.topicToUse (concept (data node)) in
  let r := App.handleFocusClick generateMedicalMap st in
  App.selectedNode (App.final r) = None
  ∧ (t ≠ [] → App.requested r = [t])
  ∧ (t ≠ [] → ∀ concepts, generateMedicalMap t = Resolved concepts →
       nodes (App.graphData (App.final r)) !! 0 = Some (App.centralNode t)
       ∧ head (App.searchHistory (App.final r)) = Some t)
  ∧ App.handleFocusClick generateMedicalMap (App.handleClosePanel st)
    = {| App.final := App.handleClosePanel st; App.requested := [] |}.
Proof.
  intros Hsel t r. subst r. unfold App.handleFocusClick.
  rewrite Hsel. unfold App.handleBreakAndStartNewMap.
  cbn [App.final App.requested].
  split; [reflexivity|]. split; [|split; [|reflexivity]].
  - intros Ht.
    destruct (handleGenerateMap_cases generateMedicalMap
                (concept (data node)) true st)
      as [[Hblank _]|[(_ & concepts & _ & ->)|(_ & _ & ->)]]; done.
  - intros Ht concepts Hsvc.
    rewrite (handleGenerateMap_resolved _ _ _ _ _ Ht Hsvc).
    split; [|reflexivity].
    change (nodes (App.processConcepts concepts t) !! 0
            = Some (App.centralNode t)).
    by rewrite processConcepts_nodes.
Qed.

Lemma focus_searches_concept_witness :
  let st := App.handleNodeClick node_b state_after_search in
  let r := App.handleFocusClick (λ _, Resolved diabetes_concepts) st in
  App.selectedNode st = Some node_b
  ∧ App.selectedNode (App.final r) = None
  ∧ App.requested r = [lit "Metformin"].
Proof.
  intros st r.
  assert (Hsel : App.selectedNode st = Some node_b) by reflexivity.
  split; [exact Hsel|].
  destruct (focus_searches_concept (λ _, Resolved diabetes_concepts) st node_b
              Hsel) as (Hclosed & Hreq & _).
  split; [exact Hclosed|]. apply Hreq. vm_compute. discriminate.
Defined.

(** ** The graph of processConcepts *)

Lemma processConcepts_node_ids (concepts : list MedicalConcept)
    (centralTopic : JsString) :
  id <$> nodes (App.processConcepts concepts centralTopic)
  = centralTopic :: (concept <$> concepts).
Proof.
  rewrite processConcepts_nodes. simpl. f_equal.
  rewrite <- list_fmap_compose. reflexivity.
Qed.

Lemma processConcepts_link_ids (concepts : list MedicalConcept)
    (centralTopic : JsString) :
  MindMap.getStableLinkId <$> links (App.processConcepts concepts centralTopic)
  = (λ name, centralTopic ++ lit "-" ++ name) <$> (concept <$> concepts).
Proof.
  rewrite processConcepts_links, <- !list_fmap_compose. reflexivity.
Qed.

(** X7. The graph of [processConcepts] has no dangling link: the source
    and the target of every link are ids of nodes of the graph, the source
    being the id of the first node. *)
Theorem processConcepts_no_dangling_links (concepts : list MedicalConcept)
    (centralTopic : JsString) (l : Link) :
  let g := App.processConcepts concepts centralTopic in
  l ∈ links g →
  ∃ a b : Node,
    nodes g !! 0 = Some a ∧ b ∈ nodes g
    ∧ denotes (source l) (id a) ∧ denotes (target l) (id b).
Proof.
  intros g Hl. subst g. rewrite processConcepts_links in Hl.
  apply list_elem_of_fmap in Hl as (c & -> & Hc).
  rewrite processConcepts_nodes.
  exists (App.centralNode centralTopic), (App.conceptNode c).
  split; [reflexivity|]. split.
  - apply list_elem_of_further, list_elem_of_fmap. by exists c.
  - split; constructor.
Qed.

Lemma processConcepts_no_dangling_links_witness :
  ∃ a b : Node,
    b ∈ nodes (App.processConcepts [mislabelled_concept] App.DEFAULT_TOPIC)
    ∧ id a = App.DEFAULT_TOPIC ∧ id b = lit "Insulin".
Proof.
  destruct (processConcepts_no_dangling_links [mislabelled_concept]
              App.DEFAULT_TOPIC
              (App.conceptLink App.DEFAULT_TOPIC mislabelled_concept))
    as (a & b & Ha & Hb & Hsrc & Htgt).
  { rewrite processConcepts_links. apply list_elem_of_here. }
  exists a, b. split; [exact Hb|].
  split; [by inversion Hsrc | by inversion Htgt].
Defined.

(** X8. The keys on which the renderer joins are unique exactly when the
    concept names are: the node ids are pairwise distinct if and only if
    the returned concept names are pairwise distinct and none is the
    topic itself; the stable link ids are pairwise distinct if and only
    if the concept names are. *)
Theorem processConcepts_join_keys_unique (concepts : list MedicalConcept)
    (centralTopic : JsString) :
  let g := App.processConcepts concepts centralTopic in
  (NoDup (id <$> nodes g)
   ↔ (centralTopic ∉ concept <$> concepts) ∧ NoDup (concept <$> concepts))
  ∧ (NoDup (MindMap.getStableLinkId <$> links g)
     ↔ NoDup (concept <$> concepts)).
Proof.
  intros g. subst g. split.
  - rewrite processConcepts_node_ids. apply NoDup_cons.
  - rewrite processConcepts_link_ids. split.
    + apply NoDup_fmap_1.
    + apply NoDup_fmap_2. intros n1 n2 Heq.
      by do 2 apply app_inv_head in Heq.
Qed.

Lemma own_property_elem (entries : list (JsString * JsString))
    (k v : JsString) :
  own_property entries k = Some v → (k, v) ∈ entries.
Proof.
  induction entries as [|[k' v'] entries IH]; simpl; [discriminate|].
  case_decide as Hk.
  - intros [= ->]. subst k'. apply list_elem_of_here.
  - intros H. apply list_elem_of_further. by apply IH.
Qed.

Lemma systemColors_entries (k v : JsString) :
  (k, v) ∈ App.systemColors →
  k ≠ [] ∧ v ≠ [] ∧ v ≠ lit "#06b6d4".
Proof.
  assert (H : Forall (λ kv : JsString * JsString,
                        kv.1 ≠ [] ∧ kv.2 ≠ [] ∧ kv.2 ≠ lit "#06b6d4")
                App.systemColors).
  { repeat constructor; discriminate. }
  rewrite Forall_forall in H. intros Hin. exact (H (k, v) Hin).
Qed.

Lemma colorOf_own (k v : JsString) :
  own_property App.systemColors k = Some v → App.colorOf k = OwnString v.
Proof. intros H. unfold App.colorOf, get_property. by rewrite H. Qed.

Lemma colorOf_Default : App.colorOf (lit "Default") = OwnString (lit "#6b7280").
Proof. reflexivity. Qed.

(** X9. The colour of a concept's node: the colour listed for its system
    when [systemColors] lists the system; the default grey when the
    concept has no system, an empty one, or one that is neither listed nor
    a member every object inherits; for such an inherited member
    ("constructor", "toString", ...) the node gets that member, which is
    no colour string. In no case is it the cyan of the central node. *)
Theorem conceptNode_color (c : MedicalConcept) :
  (system c = None ∨ system c = Some [] →
   color (App.conceptNode c) = OwnString (lit "#6b7280"))
  ∧ (∀ s col : JsString,
       system c = Some s → own_property App.systemColors s = Some col →
       color (App.conceptNode c) = OwnString col)
  ∧ (∀ s : JsString,
       system c = Some s → own_property App.systemColors s = None →
       s ∉ object_prototype_keys →
       color (App.conceptNode c) = OwnString (lit "#6b7280"))
  ∧ (∀ s : JsString,
       system c = Some s → own_property App.systemColors s = None →
       s ∈ object_prototype_keys →
       color (App.conceptNode c) = Inherited s)
  ∧ (∀ centralTopic : JsString,
       color (App.conceptNode c) ≠ color (App.centralNode centralTopic)).
Proof.
  unfold App.conceptNode. cbn [color].
  split; [|split; [|split; [|split]]].
  - intros [Hs|Hs]; unfold App.systemKey; rewrite Hs; reflexivity.
  - intros s col Hs Hown. unfold App.systemKey. rewrite Hs.
    destruct (systemColors_entries s col (own_property_elem _ _ _ Hown))
      as (Hk & Hv & _).
    unfold get_property. rewrite Hown. cbn [truthy_property].
    rewrite (truthy_true s Hk), (truthy_true col Hv). cbn [andb].
    by apply colorOf_own.
  - intros s Hs Hown Hproto. unfold App.systemKey. rewrite Hs.
    unfold get_property. rewrite Hown.
    rewrite decide_False by exact Hproto. cbn [truthy_property].
    rewrite andb_false_r. reflexivity.
  - intros s Hs Hown Hproto. unfold App.systemKey. rewrite Hs.
    assert (Hne : s ≠ []).
    { assert (Hnil : ([] : JsString) ∉ object_prototype_keys).
      { apply (bool_decide_unpack _). by vm_compute. }
      by intros ->. }
    unfold get_property. rewrite Hown.
    rewrite decide_True by exact Hproto. cbn [truthy_property].
    rewrite (truthy_true s Hne). cbn [andb].
    unfold App.colorOf, get_property. rewrite Hown.
    by rewrite decide_True by exact Hproto.
  - intros centralTopic. cbn [App.centralNode color].
    destruct (systemKey_defined c) as [v Hv].
    unfold App.colorOf. rewrite Hv. cbn [default].
    unfold get_property in Hv.
    destruct (own_property App.systemColors (App.systemKey c)) as [col|] eqn:Hown.
    + injection Hv as <-.
      destruct (systemColors_entries _ col (own_property_elem _ _ _ Hown))
        as (_ & _ & Hcyan). intros [= Heq]. by apply Hcyan.
    + case_decide; [|discriminate]. injection Hv as <-. discriminate.
Qed.

Lemma conceptNode_color_witness :
  color (App.conceptNode mislabelled_concept) = OwnString (lit "#8b5cf6").
Proof.
  apply (proj1 (proj2 (conceptNode_color mislabelled_concept))
           (lit "Endocrine") (lit "#8b5cf6")); reflexivity.
Defined.

(** ** Stable link ids as join keys *)

Lemma split_at_hyphen (s1 s2 t1 t2 : JsString) :
  HYPHEN ∉ s1 → HYPHEN ∉ s2 →
  s1 ++ HYPHEN :: t1 = s2 ++ HYPHEN :: t2 → s1 = s2 ∧ t1 = t2.
Proof.
  revert s2. induction s1 as [|a s1 IH]; intros [|b s2] H1 H2; simpl.
  - by intros [= ->].
  - intros [= <- _]. exfalso. apply H2, list_elem_of_here.
  - intros [= -> _]. exfalso. apply H1, list_elem_of_here.
  - intros [= -> Heq].
    destruct (IH s2) as [-> ->]; [| |exact Heq|done].
    + intros Hin. by apply H1, list_elem_of_further.
    + intros Hin. by apply H2, list_elem_of_further.
Qed.

(** X10. When the source ids contain no hyphen, [getStableLinkId] tells
    links apart: two links with the same stable id have the same source
    id and the same target id. With a hyphen in a source id it does not:
    the link from "a-b" to "c" and the link from "a" to "b-c" get the same
    stable id. *)
Theorem getStableLinkId_injective (l1 l2 : Link) (s1 t1 s2 t2 : JsString) :
  denotes (source l1) s1 → denotes (target l1) t1 →
  denotes (source l2) s2 → denotes (target l2) t2 →
  HYPHEN ∉ s1 → HYPHEN ∉ s2 →
  (MindMap.getStableLinkId l1 = MindMap.getStableLinkId l2
   ↔ s1 = s2 ∧ t1 = t2)
  ∧ (∀ a b c : JsString,
       MindMap.getStableLinkId
         {| source := EpId (a ++ lit "-" ++ b); target := EpId c |}
       = MindMap.getStableLinkId
           {| source := EpId a; target := EpId (b ++ lit "-" ++ c) |}).
Proof.
  intros Hs1 Ht1 Hs2 Ht2 Hh1 Hh2. split.
  - rewrite (getStableLinkId_denotes l1 s1 t1 Hs1 Ht1).
    rewrite (getStableLinkId_denotes l2 s2 t2 Hs2 Ht2).
    split; [|by intros [-> ->]].
    intros Heq. by apply (split_at_hyphen s1 s2 t1 t2).
  - intros a b c. unfold MindMap.getStableLinkId. cbn [source target].
    by rewrite <- !app_assoc.
Qed.

Lemma getStableLinkId_injective_witness :
  MindMap.getStableLinkId link_bare = MindMap.getStableLinkId link_resolved
  ↔ lit "Polyuria" = lit "Polyuria" ∧ lit "Metformin" = lit "Metformin".
Proof.
  refine (proj1 (getStableLinkId_injective link_bare link_resolved
                   (lit "Polyuria") (lit "Metformin")
                   (lit "Polyuria") (lit "Metformin")
                   (denotes_bare (id node_a)) (denotes_bare (id node_b))
                   (denotes_node node_a) (denotes_node node_b) _ _));
    apply (bool_decide_unpack _); by vm_compute.
Defined.

(** ** The side panel, further *)

Lemma generateQuizNow_selected (st : SidePanel.State) (n : Node)
    (o : Outcome QuizQuestion) :
  SidePanel.selectedNode st = Some n →
  SidePanel.generateQuizNow o st
  = SidePanel.quizSettled o
      (SidePanel.setApiError None
        (SidePanel.setIsAnswerSubmitted false
          (SidePanel.setSelectedAnswer None
            (SidePanel.setQuiz None
              (SidePanel.setIsQuizLoading true st))))).
Proof.
  intros Hn. unfold SidePanel.generateQuizNow, SidePanel.handleGenerateQuiz.
  rewrite Hn. reflexivity.
Qed.

(** X11. Selecting a node wipes the panel: the state after the selection
    depends on the node and on the two flags [isQuizLoading] and
    [isFlashcardLoading] only, which the selection leaves as they were;
    one image request is issued, for the node's concept. *)
Theorem selectNode_forgets (st1 st2 : SidePanel.State) (n : Node) :
  SidePanel.isQuizLoading st1 = SidePanel.isQuizLoading st2 →
  SidePanel.isFlashcardLoading st1 = SidePanel.isFlashcardLoading st2 →
  SidePanel.selectNode (Some n) st1 = SidePanel.selectNode (Some n) st2
  ∧ (SidePanel.selectNode (Some n) st1).2
    = [SidePanel.ImageRequest (concept (data n))]
  ∧ SidePanel.isQuizLoading (SidePanel.selectNode (Some n) st1).1
    = SidePanel.isQuizLoading st1
  ∧ SidePanel.isFlashcardLoading (SidePanel.selectNode (Some n) st1).1
    = SidePanel.isFlashcardLoading st1.
Proof.
  destruct st1, st2. cbn [SidePanel.isQuizLoading SidePanel.isFlashcardLoading].
  intros -> ->. vm_compute. repeat split.
Qed.

Lemma selectNode_forgets_witness :
  SidePanel.selectNode (Some node_b) deck_at_first_card
  = SidePanel.selectNode (Some node_b) SidePanel.initial.
Proof.
  exact (proj1 (selectNode_forgets deck_at_first_card SidePanel.initial node_b
                  eq_refl eq_refl)).
Defined.

(** X12. With a node selected, generating a quiz discards the previous
    quiz and answer at once. If the service fails the panel is left with
    no quiz and the quiz error message; if it succeeds the panel shows the
    new quiz with nothing chosen. Either way the quiz spinner is off and
    the flashcards and the image are untouched. *)
Theorem quiz_generation_outcome (st : SidePanel.State) (n : Node) :
  SidePanel.selectedNode st = Some n →
  (let st' := SidePanel.generateQuizNow Rejected st in
   SidePanel.quiz st' = None
   ∧ SidePanel.apiError st' = Some SidePanel.API_ERROR_QUIZ
   ∧ SidePanel.selectedAnswer st' = None
   ∧ SidePanel.isAnswerSubmitted st' = false
   ∧ SidePanel.isQuizLoading st' = false
   ∧ SidePanel.flashcards st' = SidePanel.flashcards st
   ∧ SidePanel.currentFlashcardIndex st' = SidePanel.currentFlashcardIndex st
   ∧ SidePanel.imageUrl st' = SidePanel.imageUrl st)
  ∧ (∀ q : QuizQuestion,
       let st' := SidePanel.generateQuizNow (Resolved q) st in
       SidePanel.quiz st' = Some q
       ∧ SidePanel.apiError st' = None
       ∧ SidePanel.selectedAnswer st' = None
       ∧ SidePanel.isAnswerSubmitted st' = false
       ∧ SidePanel.isQuizLoading st' = false
       ∧ SidePanel.flashcards st' = SidePanel.flashcards st
       ∧ SidePanel.currentFlashcardIndex st'
         = SidePanel.currentFlashcardIndex st
       ∧ SidePanel.imageUrl st' = SidePanel.imageUrl st).
Proof.
  intros Hn. split; [|intros q];
    rewrite (generateQuizNow_selected st n _ Hn); destruct st;
    vm_compute; repeat split.
Qed.

Lemma quiz_generation_outcome_witness :
  SidePanel.quiz panel_with_quiz = Some sample_quiz
  ∧ SidePanel.quiz (SidePanel.generateQuizNow Rejected panel_with_quiz) = None.
Proof.
  split; [reflexivity|].
  exact (proj1 (proj1 (quiz_generation_outcome panel_with_quiz node_a eq_refl))).
Defined.

(** X13. With a node selected, a flashcard generation that fails keeps
    the deck: the cards and the current index are what they were, the
    flashcard error message is set, the spinner is off and the card shown
    is turned face up. *)
Theorem flashcard_failure_keeps_deck (st : SidePanel.State) (n : Node) :
  SidePanel.selectedNode st = Some n →
  let st' := SidePanel.generateFlashcardNow Rejected st in
  SidePanel.flashcards st' = SidePanel.flashcards st
  ∧ SidePanel.currentFlashcardIndex st' = SidePanel.currentFlashcardIndex st
  ∧ SidePanel.currentFlashcard st' = SidePanel.currentFlashcard st
  ∧ SidePanel.apiError st' = Some SidePanel.API_ERROR_FLASHCARD
  ∧ SidePanel.isFlashcardLoading st' = false
  ∧ SidePanel.isFlashcardFlipped st' = false
  ∧ SidePanel.quiz st' = SidePanel.quiz st.
Proof.
  intros Hn st'. subst st'.
  rewrite (generateFlashcardNow_selected st n _ Hn). destruct st.
  vm_compute. repeat split.
Qed.

Lemma flashcard_failure_keeps_deck_witness :
  SidePanel.flashcards
    (SidePanel.generateFlashcardNow Rejected deck_at_second_card)
  = [card1; card2]
  ∧ SidePanel.currentFlashcardIndex
      (SidePanel.generateFlashcardNow Rejected deck_at_second_card) = 1%Z.
Proof.
  destruct (flashcard_failure_keeps_deck deck_at_second_card node_a eq_refl)
    as (Hcards & Hidx & _).
  split; [exact Hcards | exact Hidx].
Defined.

(** X14. The quiz answer locks on submission. Before it, choosing an
    option replaces the choice, so the last option clicked is the chosen
    one; submitting with nothing chosen does nothing. After it, neither
    choosing an option nor submitting again changes the panel. *)
Theorem quiz_answer_locks (st : SidePanel.State) (o1 o2 : JsString) :
  (SidePanel.isAnswerSubmitted st = false →
   SidePanel.handleAnswerSelect o2 (SidePanel.handleAnswerSelect o1 st)
   = SidePanel.handleAnswerSelect o2 st
   ∧ SidePanel.selectedAnswer (SidePanel.handleAnswerSelect o2 st) = Some o2)
  ∧ (SidePanel.selectedAnswer st = None →
     SidePanel.handleSubmitAnswer st = st)
  ∧ (SidePanel.isAnswerSubmitted st = true →
     SidePanel.handleAnswerSelect o1 st = st)
  ∧ (SidePanel.isAnswerSubmitted (SidePanel.handleSubmitAnswer st) = true →
     SidePanel.handleAnswerSelect o1 (SidePanel.handleSubmitAnswer st)
     = SidePanel.handleSubmitAnswer st)
  ∧ SidePanel.handleSubmitAnswer (SidePanel.handleSubmitAnswer st)
    = SidePanel.handleSubmitAnswer st.
Proof.
  unfold SidePanel.handleAnswerSelect, SidePanel.handleSubmitAnswer.
  destruct st as [sel img imgL qz qzL [a|] sub cards idx fcL flip err];
    cbn [SidePanel.isAnswerSubmitted SidePanel.selectedAnswer].
  - destruct (truthy a) eqn:Ha, sub; cbn; rewrite ?Ha; repeat split; done.
  - destruct sub; cbn; repeat split; done.
Qed.

Lemma quiz_answer_locks_witness :
  let chosen := SidePanel.handleAnswerSelect (lit "Glucagon") panel_with_quiz in
  let submitted := SidePanel.handleSubmitAnswer chosen in
  SidePanel.isAnswerSubmitted submitted = true
  ∧ SidePanel.handleAnswerSelect (lit "Insulin") submitted = submitted.
Proof.
  intros chosen submitted.
  assert (Hsub : SidePanel.isAnswerSubmitted submitted = true) by reflexivity.
  split; [exact Hsub|].
  exact (proj1 (proj2 (proj2 (quiz_answer_locks submitted (lit "Insulin") []))) Hsub).
Defined.

Lemma step_submitted_answer_ok (e : SidePanel.Event) (st : SidePanel.State) :
  submitted_answer_ok st → submitted_answer_ok (SidePanel.step e st).1.
Proof.
  unfold submitted_answer_ok.
  destruct st as [sel img imgL qz qzL ans sub cards idx fcL flip err].
  cbn [SidePanel.isAnswerSubmitted SidePanel.selectedAnswer]. intros Hok.
  destruct e as [[n|]| | | | |o| |r resp]; cbn.
  - discriminate.
  - exact Hok.
  - destruct sel; cbn; [discriminate | exact Hok].
  - destruct sel; cbn; exact Hok.
  - unfold SidePanel.handlePrevFlashcard. cbn.
    destruct (0 <? idx)%Z; exact Hok.
  - unfold SidePanel.handleNextFlashcard. cbn.
    destruct (idx <? Z.of_nat (length cards) - 1)%Z; exact Hok.
  - unfold SidePanel.handleAnswerSelect. cbn.
    destruct sub; cbn; [exact Hok | discriminate].
  - unfold SidePanel.handleSubmitAnswer. cbn.
    destruct ans as [a|]; [|exact Hok].
    destruct (truthy a) eqn:Ha; cbn; [|exact Hok].
    intros _. exists a. split; [reflexivity|]. by destruct a.
  - destruct r as [c|subject|subject captured], resp as [url|[q|]|[card|]];
      cbn; exact Hok.
Qed.

Lemma run_submitted_answer_ok (es : list SidePanel.Event)
    (st : SidePanel.State) :
  submitted_answer_ok st → submitted_answer_ok (SidePanel.run es st).1.
Proof.
  revert st. induction es as [|e es IH]; intros st Hok; [exact Hok|].
  cbn [SidePanel.run].
  pose proof (step_submitted_answer_ok e st Hok) as Hstep.
  destruct (SidePanel.step e st) as [st1 rs1].
  specialize (IH st1 Hstep).
  destruct (SidePanel.run es st1) as [st2 rs2]. exact IH.
Qed.

(** X15. Whatever happens to the panel, in whatever order (selections,
    clicks, responses arriving early or late), an answer is shown as
    submitted only while an answer is chosen, and that answer is not the
    empty string. *)
Theorem submitted_only_with_answer (es : list SidePanel.Event) :
  submitted_answer_ok (SidePanel.run es SidePanel.initial).1.
Proof. apply run_submitted_answer_ok. intros H. discriminate H. Qed.

(** X16. The verdict on a submitted answer. With a quiz on screen and no
    answer submitted yet, choosing a non-empty option and submitting it
    gives the heading "Correct!" if the option is the quiz's correct
    answer and "Incorrect." otherwise; the button of the correct answer
    turns green, the button of a wrong chosen option red, and every other
    button is dimmed. *)
Theorem quiz_verdict (st : SidePanel.State) (q : QuizQuestion)
    (o : JsString) :
  SidePanel.quiz st = Some q →
  SidePanel.isQuizLoading st = false →
  SidePanel.isAnswerSubmitted st = false →
  o ≠ [] →
  let st' := SidePanel.handleSubmitAnswer (SidePanel.handleAnswerSelect o st) in
  SidePanel.resultHeading st'
  = Some (if decide (o = correctAnswer q)
          then lit "Correct!" else lit "Incorrect.")
  ∧ SidePanel.getButtonClass (correctAnswer q) st' = SidePanel.CLASS_CORRECT
  ∧ (o ≠ correctAnswer q →
     SidePanel.getButtonClass o st' = SidePanel.CLASS_WRONG)
  ∧ (∀ other : JsString, other ≠ o → other ≠ correctAnswer q →
     SidePanel.getButtonClass other st' = SidePanel.CLASS_OTHER).
Proof.
  destruct st as [sel img imgL qz qzL ans sub cards idx fcL flip err].
  cbn [SidePanel.quiz SidePanel.isQuizLoading SidePanel.isAnswerSubmitted].
  intros -> -> -> Ho.
  unfold SidePanel.handleAnswerSelect, SidePanel.handleSubmitAnswer.
  cbn. rewrite (truthy_true o Ho).
  unfold SidePanel.resultHeading, SidePanel.getButtonClass,
    SidePanel.quizCorrectAnswer. cbn.
  split; [|split; [|split]].
  - destruct (decide (o = correctAnswer q)) as [->|Hne].
    + by rewrite decide_True.
    + rewrite decide_False; [reflexivity|]. by intros [= ->].
  - by rewrite decide_True.
  - intros Hne. rewrite decide_False by (by intros [= ->]).
    rewrite decide_True; [reflexivity|]. split; [reflexivity|].
    by intros [= ->].
  - intros other Hother Hwrong.
    rewrite decide_False by (by intros [= ->]).
    rewrite decide_False; [reflexivity|]. by intros [[= ->] _].
Qed.

Lemma quiz_verdict_witness :
  SidePanel.resultHeading
    (SidePanel.handleSubmitAnswer
       (SidePanel.handleAnswerSelect (lit "Glucagon") panel_with_quiz))
  = Some (lit "Incorrect.").
Proof.
  assert (Ho : lit "Glucagon" ≠ []) by (vm_compute; discriminate).
  exact (proj1 (quiz_verdict panel_with_quiz sample_quiz (lit "Glucagon")
                  eq_refl eq_refl eq_refl Ho)).
Defined.

Lemma paging_step (e : SidePanel.Event) (st : SidePanel.State) :
  is_paging e = true →
  (SidePanel.currentFlashcardIndex (SidePanel.step e st).1
   ≤ SidePanel.currentFlashcardIndex st)%Z
  ∧ SidePanel.flashcards (SidePanel.step e st).1 = SidePanel.flashcards st
  ∧ (SidePanel.step e st).2 = [].
Proof.
  destruct st as [sel img imgL qz qzL ans sub cards idx fcL flip err].
  destruct e; try discriminate; intros _; cbn.
  - unfold SidePanel.handlePrevFlashcard. cbn.
    destruct (0 <? idx)%Z; cbn; repeat split; lia.
  - unfold SidePanel.handleNextFlashcard. cbn.
    destruct (idx <? Z.of_nat (length cards) - 1)%Z; cbn; repeat split; lia.
Qed.

(** X17. Paging never moves forward: after any sequence of clicks on the
    Prev and Next controls the current index is at most what it was, the
    cards are the same, and no request has been issued. Only a new
    generation moves the cursor to a later card. *)
Theorem paging_never_advances (es : list SidePanel.Event)
    (st : SidePanel.State) :
  forallb is_paging es = true →
  (SidePanel.currentFlashcardIndex (SidePanel.run es st).1
   ≤ SidePanel.currentFlashcardIndex st)%Z
  ∧ SidePanel.flashcards (SidePanel.run es st).1 = SidePanel.flashcards st
  ∧ (SidePanel.run es st).2 = [].
Proof.
  revert st. induction es as [|e es IH]; intros st Hes.
  - cbn. repeat split. lia.
  - cbn [forallb] in Hes. apply andb_prop in Hes as [He Hes].
    cbn [SidePanel.run].
    destruct (paging_step e st He) as (Hidx & Hcards & Hreqs).
    destruct (SidePanel.step e st) as [st1 rs1]. cbn [fst snd] in *.
    specialize (IH st1 Hes).
    destruct (SidePanel.run es st1) as [st2 rs2]. cbn [fst snd] in *.
    destruct IH as (Hidx2 & Hcards2 & Hreqs2). subst rs1 rs2.
    split; [lia|]. split; [congruence | reflexivity].
Qed.

Lemma paging_never_advances_witness :
  SidePanel.currentFlashcardIndex deck_at_first_card = 0%Z
  ∧ (SidePanel.currentFlashcardIndex
       (SidePanel.run [SidePanel.ClickNext; SidePanel.ClickNext;
                       SidePanel.ClickPrev] deck_at_first_card).1
     ≤ SidePanel.currentFlashcardIndex deck_at_first_card)%Z.
Proof.
  split; [reflexivity|].
  exact (proj1 (paging_never_advances
                  [SidePanel.ClickNext; SidePanel.ClickNext; SidePanel.ClickPrev]
                  deck_at_first_card eq_refl)).
Defined.

Lemma currentFlashcard_None (st : SidePanel.State) :
  SidePanel.currentFlashcard st = None ↔ ¬ cursor_in_deck st.
Proof.
  unfold SidePanel.currentFlashcard, cursor_in_deck.
  destruct (Z.ltb_spec (SidePanel.currentFlashcardIndex st) 0) as [Hneg|Hpos].
  - split; [lia | reflexivity].
  - rewrite lookup_ge_None. lia.
Qed.

(** X18. Drawing the deck reads the current card, and fails exactly when
    the cursor is outside the deck. The Prev control keeps the cursor
    inside; the Next control takes it outside exactly from the first card
    of a deck of two or more. A successful generation leaves the cursor
    inside when the deck at the answer is still the deck of the click;
    when a node is selected between the click and the answer and the deck
    of the click was not empty, the cursor ends outside and drawing the
    deck fails. A paging control that is disabled would do nothing if its
    handler ran. *)
Theorem deck_cursor (st : SidePanel.State) :
  (SidePanel.deckShown st = true →
   (SidePanel.deckFront st = Rejected ↔ ¬ cursor_in_deck st))
  ∧ (cursor_in_deck st → cursor_in_deck (SidePanel.handlePrevFlashcard st))
  ∧ (cursor_in_deck st →
     (cursor_in_deck (SidePanel.handleNextFlashcard st)
      ↔ ¬ (SidePanel.currentFlashcardIndex st = 0%Z
           ∧ 2 ≤ length (SidePanel.flashcards st))))
  ∧ (∀ (n : Node) (es : list SidePanel.Event) (card : Flashcard),
       SidePanel.selectedNode st = Some n →
       let before :=
         (SidePanel.run es (SidePanel.handleGenerateFlashcard st).1).1 in
       SidePanel.flashcards before = SidePanel.flashcards st →
       cursor_in_deck
         (SidePanel.settle
            (SidePanel.FlashcardRequest (data n) (SidePanel.flashcards st))
            (SidePanel.FlashcardResponse (Resolved card)) before))
  ∧ (∀ (n b : Node) (card : Flashcard),
       SidePanel.selectedNode st = Some n →
       SidePanel.flashcards st ≠ [] →
       let after :=
         SidePanel.settle
           (SidePanel.FlashcardRequest (data n) (SidePanel.flashcards st))
           (SidePanel.FlashcardResponse (Resolved card))
           (SidePanel.selectNode (Some b)
              (SidePanel.handleGenerateFlashcard st).1).1 in
       SidePanel.flashcards after = [card]
       ∧ ¬ cursor_in_deck after
       ∧ SidePanel.deckFront after = Rejected)
  ∧ (SidePanel.prevDisabled st = true → SidePanel.handlePrevFlashcard st = st)
  ∧ (SidePanel.nextDisabled st = true → SidePanel.handleNextFlashcard st = st).
Proof.
  split; [|split; [|split; [|split; [|split; [|split]]]]].
  - intros Hshown. unfold SidePanel.deckFront. rewrite Hshown.
    rewrite <- currentFlashcard_None.
    destruct (SidePanel.currentFlashcard st); split; done.
  - unfold cursor_in_deck, SidePanel.handlePrevFlashcard.
    destruct (Z.ltb_spec 0 (SidePanel.currentFlashcardIndex st));
      destruct st; cbn in *; lia.
  - unfold cursor_in_deck, SidePanel.handleNextFlashcard.
    destruct (Z.ltb_spec (SidePanel.currentFlashcardIndex st)
                (Z.of_nat (length (SidePanel.flashcards st)) - 1));
      destruct st; cbn in *; lia.
  - intros n es card Hn before Hsame. unfold cursor_in_deck.
    cbn [SidePanel.settle].
    destruct (flashcardSettled_cards (SidePanel.flashcards st) card before)
      as (-> & -> & _).
    rewrite length_app, Hsame. cbn. lia.
  - intros n b card Hn Hcards after. subst after.
    unfold SidePanel.handleGenerateFlashcard. rewrite Hn.
    destruct st as [sel img imgL qz qzL ans sub cards idx fcL flip err].
    cbn in Hcards. destruct cards as [|c cards]; [done|].
    split; [reflexivity|]. split.
    + unfold cursor_in_deck. cbn. lia.
    + unfold SidePanel.deckFront, SidePanel.deckShown,
        SidePanel.currentFlashcard. cbn.
      destruct (Z.ltb_spec (Z.of_nat (S (length cards))) 0); [reflexivity|].
      rewrite Nat2Z.id. reflexivity.
  - unfold SidePanel.prevDisabled, SidePanel.handlePrevFlashcard.
    intros H%Z.eqb_eq. rewrite H. reflexivity.
  - unfold SidePanel.nextDisabled, SidePanel.handleNextFlashcard.
    intros H%Z.eqb_eq. rewrite H at 1. by rewrite Z.ltb_irrefl.
Qed.

Lemma deck_cursor_witness :
  SidePanel.deckShown (SidePanel.handleNextFlashcard deck_at_first_card) = true
  ∧ SidePanel.deckFront (SidePanel.handleNextFlashcard deck_at_first_card)
    = Rejected
  ∧ SidePanel.deckFront
      (SidePanel.settle
         (SidePanel.FlashcardRequest (data node_a)
            (SidePanel.flashcards deck_one_card))
         (SidePanel.FlashcardResponse (Resolved card2))
         (SidePanel.selectNode (Some node_b)
            (SidePanel.handleGenerateFlashcard deck_one_card).1).1)
    = Rejected.
Proof.
  split; [reflexivity|]. split.
  - apply (proj1 (deck_cursor (SidePanel.handleNextFlashcard deck_at_first_card))
             eq_refl).
    unfold cursor_in_deck. vm_compute. intros [H _]. by apply H.
  - assert (Hsel : SidePanel.selectedNode deck_one_card = Some node_a)
      by (vm_compute; reflexivity).
    assert (Hcards : SidePanel.flashcards deck_one_card ≠ [])
      by (vm_compute; discriminate).
    destruct (deck_cursor deck_one_card) as (_ & _ & _ & _ & Hlate & _).
    destruct (Hlate node_a node_b card2 Hsel Hcards) as (_ & _ & Hfront).
    exact Hfront.
Defined.

(** ** The collision radius, further *)

Lemma collideRadius_sized (d : Node) (w h : Q) :
  width d = Some w → height d = Some h →
  (MindMap.collideRadiusUpdate d == Qmax w h / 2 + 8)%Q
  ∧ MindMap.collideRadiusInit d = MindMap.collideRadiusUpdate d.
Proof.
  intros Hw Hh. split; [|reflexivity].
  unfold MindMap.collideRadiusUpdate. rewrite Hw, Hh.
  assert (Hmax : (Qmax (MindMap.orZero (Some w)) (MindMap.orZero (Some h))
                  == Qmax w h)%Q).
  { apply Q.max_compat; apply orZero_Some. }
  by rewrite Hmax.
Qed.

Lemma half_plus_padding_le (a b : Q) :
  (a <= b → a / 2 + 8 <= b / 2 + 8)%Q.
Proof.
  intros Hab. apply Qplus_le_l. unfold Qdiv.
  by apply Qmult_le_compat_r.
Qed.

(** X19. The collision radius grows with the label: of two nodes, the one
    that is at least as wide and at least as high has a radius at least
    as large, at creation of the simulation and after a rebind. A node
    that has not been measured has radius 8. *)
Theorem collide_radius_monotone (d1 d2 : Node) (w1 h1 w2 h2 : Q) :
  width d1 = Some w1 → height d1 = Some h1 →
  width d2 = Some w2 → height d2 = Some h2 →
  (w1 <= w2)%Q → (h1 <= h2)%Q →
  (MindMap.collideRadiusInit d1 <= MindMap.collideRadiusInit d2)%Q
  ∧ (MindMap.collideRadiusUpdate d1 <= MindMap.collideRadiusUpdate d2)%Q
  ∧ (∀ d : Node, width d = None → height d = None →
       (MindMap.collideRadiusUpdate d == 8)%Q).
Proof.
  intros Hw1 Hh1 Hw2 Hh2 Hw Hh.
  destruct (collideRadius_sized d1 w1 h1 Hw1 Hh1) as [Hr1 ->].
  destruct (collideRadius_sized d2 w2 h2 Hw2 Hh2) as [Hr2 ->].
  assert (Hle : (MindMap.collideRadiusUpdate d1
                 <= MindMap.collideRadiusUpdate d2)%Q).
  { rewrite Hr1, Hr2. apply half_plus_padding_le.
    by apply Q.max_le_compat. }
  split; [exact Hle|]. split; [exact Hle|].
  intros d Hwd Hhd. unfold MindMap.collideRadiusUpdate.
  rewrite Hwd, Hhd. reflexivity.
Qed.

Lemma collide_radius_monotone_witness :
  (MindMap.collideRadiusUpdate unmeasured_node
   <= MindMap.collideRadiusUpdate placed_node)%Q.
Proof.
  refine (proj1 (proj2 (collide_radius_monotone unmeasured_node placed_node
                          60 40 110 44 eq_refl eq_refl eq_refl eq_refl _ _)));
    vm_compute; discriminate.
Defined.

(** X20. The collision circle reaches past the middle of every side of
    the label box by the padding: its radius is at least half the width
    plus 8 and at least half the height plus 8, and equals one of the two.
    After the measuring pass the radius is at least 20 when the text box
    has non-negative sides, and 38 when there is no text element. *)
Theorem collide_radius_covers_sides (d : Node) (w h : Q) :
  width d = Some w → height d = Some h →
  let r := MindMap.collideRadiusUpdate d in
  (w / 2 + 8 <= r)%Q ∧ (h / 2 + 8 <= r)%Q
  ∧ ((r == w / 2 + 8)%Q ∨ (r == h / 2 + 8)%Q)
  ∧ (∀ (n : Node) (bw bh : Q), (0 <= bw)%Q → (0 <= bh)%Q →
       (20 <= MindMap.collideRadiusUpdate (MindMap.measure (Some (bw, bh)) n))%Q)
  ∧ (∀ n : Node,
       (MindMap.collideRadiusUpdate (MindMap.measure None n) == 38)%Q).
Proof.
  intros Hw Hh r. subst r.
  destruct (collideRadius_sized d w h Hw Hh) as [Hr _].
  split; [|split; [|split; [|split]]].
  - rewrite Hr. apply half_plus_padding_le, Q.le_max_l.
  - rewrite Hr. apply half_plus_padding_le, Q.le_max_r.
  - destruct (Q.max_spec w h) as [[_ Hmax]|[_ Hmax]]; [right|left];
      by rewrite Hr, Hmax.
  - intros n bw bh Hbw Hbh.
    destruct (collideRadius_sized (MindMap.measure (Some (bw, bh)) n)
                (bw + MindMap.PADDING_X) (bh + MindMap.PADDING_Y)
                eq_refl eq_refl) as [Hrn _].
    rewrite Hrn.
    apply Qle_trans with ((bw + MindMap.PADDING_X) / 2 + 8)%Q.
    + apply Qle_trans with (MindMap.PADDING_X / 2 + 8)%Q;
        [vm_compute; discriminate|].
      apply half_plus_padding_le.
      rewrite <- (Qplus_0_l MindMap.PADDING_X) at 1.
      by apply Qplus_le_l.
    + apply half_plus_padding_le, Q.le_max_l.
  - intros n. reflexivity.
Qed.

Lemma collide_radius_covers_sides_witness :
  (110 / 2 + 8 <= MindMap.collideRadiusUpdate placed_node)%Q
  ∧ (44 / 2 + 8 <= MindMap.collideRadiusUpdate placed_node)%Q.
Proof.
  destruct (collide_radius_covers_sides placed_node 110 44 eq_refl eq_refl)
    as (Hw & Hh & _).
  split; [exact Hw | exact Hh].
Defined.

(** ** Dragging *)

Lemma withPin_withPin (p1 p2 q1 q2 : option Q) (d : Node) :
  MindMap.withPin p1 p2 (MindMap.withPin q1 q2 d) = MindMap.withPin p1 p2 d.
Proof. reflexivity. Qed.

Lemma fold_dragged (moves : list (Q * Q)) (d : Node) :
  fold_left (λ n p, MindMap.dragged p n) moves d
  = match last moves with
    | Some p => MindMap.withPin (Some p.1) (Some p.2) d
    | None => d
    end.
Proof.
  induction moves as [|p moves IH] using rev_ind; [reflexivity|].
  rewrite fold_left_app, last_snoc. cbn [fold_left].
  rewrite IH. unfold MindMap.dragged.
  destruct (last moves); by rewrite ?withPin_withPin.
Qed.

(** X21. A drag gesture on a node. While the pointer is held the node is
    pinned where the pointer last was (where the node itself was, before
    the pointer has moved). When the pointer is released the node is the
    node of before the gesture with no pin, also if it had a pin before.
    A gesture that starts with no other gesture in progress starts the
    simulation's timer, and one that ends with no other in progress sets
    the energy target back to 0. *)
Theorem drag_gesture_releases (activeAtStart activeAtEnd : nat)
    (moves : list (Q * Q)) (sim : MindMap.Simulation) (d : Node) :
  let held :=
    fold_left (λ n p, MindMap.dragged p n) moves
      (MindMap.dragstarted activeAtStart sim d).2 in
  let r := MindMap.dragGesture activeAtStart activeAtEnd moves sim d in
  (moves = [] → fx held = x d ∧ fy held = y d)
  ∧ (∀ p : Q * Q, last moves = Some p →
       fx held = Some p.1 ∧ fy held = Some p.2)
  ∧ x held = x d ∧ y held = y d
  ∧ r.2 = MindMap.withPin None None d
  ∧ (activeAtStart = 0 → MindMap.running r.1 = true)
  ∧ (activeAtEnd = 0 → MindMap.alphaTarget r.1 = 0%Q)
  ∧ (activeAtStart ≠ 0 → activeAtEnd ≠ 0 → r.1 = sim).
Proof.
  intros held r. subst held r. unfold MindMap.dragGesture.
  unfold MindMap.dragstarted, MindMap.dragended. cbn [fst snd].
  rewrite fold_dragged.
  split; [by intros ->|].
  split; [by intros p ->|].
  split; [by destruct (last moves)|]. split; [by destruct (last moves)|].
  split; [by destruct (last moves)|].
  destruct activeAtStart, activeAtEnd; cbn; repeat split; done.
Qed.

Lemma drag_gesture_releases_witness :
  let moves := [(210, 160); (250, 180)]%Q in
  let held :=
    fold_left (λ n p, MindMap.dragged p n) moves
      (MindMap.dragstarted 0 idle_simulation placed_node).2 in
  let r := MindMap.dragGesture 0 0 moves idle_simulation placed_node in
  fx held = Some 250%Q ∧ fy held = Some 180%Q
  ∧ fx r.2 = None ∧ x r.2 = Some 200%Q
  ∧ MindMap.alphaTarget r.1 = 0%Q.
Proof.
  intros moves held r.
  destruct (drag_gesture_releases 0 0 moves idle_simulation placed_node)
    as (_ & Hlast & _ & _ & Hreleased & _ & Htarget & _).
  destruct (Hlast (250, 180)%Q eq_refl) as [Hfx Hfy].
  split; [exact Hfx|]. split; [exact Hfy|].
  split; [unfold r; by rewrite Hreleased|].
  split; [unfold r; by rewrite Hreleased|].
  exact (Htarget eq_refl).
Defined.

(** ** wikipediaService.ts *)

(** X22. [fetchConceptImage] gives an image URL in one case only: the
    request succeeded with an ok status, the first of the returned pages
    is not the missing page "-1" and has a thumbnail; the URL is that
    thumbnail's source. A network error, a bad status, an unreadable body,
    no page at all, a missing page and a page without thumbnail all give
    [null]; pages after the first are not looked at. *)
Theorem fetchConceptImage_url (r : WikipediaService.FetchResult)
    (url : JsString) :
  WikipediaService.fetchConceptImage r = Some url
  ↔ ∃ (pageId : JsString) (page : WikipediaService.Page)
      (rest : list (JsString * WikipediaService.Page))
      (t : WikipediaService.Thumbnail),
      r = WikipediaService.HttpResponse true
            (WikipediaService.Pages ((pageId, page) :: rest))
      ∧ pageId ≠ lit "-1"
      ∧ WikipediaService.thumbnail page = Some t
      ∧ WikipediaService.thumb_source t = url.
Proof.
  unfold WikipediaService.fetchConceptImage, WikipediaService.lookupThumbnail.
  split.
  - destruct r as [|[|] [|[|[pageId page] rest]]]; cbn; try discriminate.
    case_decide as Hid; [|discriminate].
    destruct (WikipediaService.thumbnail page) as [t|] eqn:Ht; [|discriminate].
    intros [= <-]. by exists pageId, page, rest, t.
  - intros (pageId & page & rest & t & -> & Hid & Ht & <-). cbn.
    rewrite decide_True by exact Hid. by rewrite Ht.
Qed.
